(** * The nuclio function operator (pkg/platform/kube/controller/nucliofunction.go)

    A shallow embedding of [functionOperator.CreateOrUpdate] and of the
    helpers it calls, followed by the properties of the reconciliation
    specification.

    Go packages imported by the source file are Rocq modules of the same
    name; the controller package itself is at top level.  A Go function is
    a computation in the monad [Go]: it reads and writes the heap of
    function objects, reads the wall clock, emits the calls it makes to its
    collaborators (logger, resource client, client set) as a trace, and
    either returns or panics. *)

From Stdlib Require Import ZArith Lia.
From stdpp Require Import base option list strings gmap.

Local Open Scope string_scope.
Local Open Scope Z_scope.

(** ** Package time: instants and durations in nanoseconds *)

Module time.

(** An instant, in nanoseconds since the epoch. *)
Definition Time := Z.

(** [time.Duration] is an int64 count of nanoseconds. *)
Definition Duration := Z.

Definition Second : Duration := 1000000000.

(** Two's complement wrap-around of int64 arithmetic. *)
Definition int64 (z : Z) : Z := (z + 2 ^ 63) mod 2 ^ 64 - 2 ^ 63.

(** [time.Duration(n) * time.Second] for a Go int [n]. *)
Definition Seconds (n : Z) : Duration := int64 (int64 n * Second).

(** [t.Add(d)] *)
Definition Add (t : Time) (d : Duration) : Time := t + d.

(** [t.Before(u)] *)
Definition Before (t u : Time) : bool := Z.ltb t u.

End time.

(** ** Package context: deadlines *)

Module context.

(** The contexts the operator meets: the root, a cancellable child, and a
    child carrying its own deadline (Go's timerCtx). *)
Inductive Context : Type :=
| Background
| cancelCtx (parent : Context)
| timerCtx (parent : Context) (deadline : time.Time).

Fixpoint Deadline (c : Context) : option time.Time :=
  match c with
  | Background => None
  | cancelCtx parent => Deadline parent
  | timerCtx _ d => Some d
  end.

(** [context.WithDeadline(parent, d)]: when the parent already expires
    before [d] the child is a plain cancellable child of the parent. *)
Definition WithDeadline (parent : Context) (d : time.Time) : Context :=
  match Deadline parent with
  | Some cur => if time.Before cur d then cancelCtx parent else timerCtx parent d
  | None => timerCtx parent d
  end.

End context.

(** ** Package errors (github.com/nuclio/errors) *)

Module errors.

(** A non-nil error value: a message, possibly wrapping a cause. *)
Inductive Error : Type :=
| New (message : string)
| Wrap (cause : Error) (message : string).

Definition message (e : Error) : string :=
  match e with
  | New m => m
  | Wrap _ m => m
  end.

(** Modelled from the spec: [errors.Cause], which the errors library
    defines: the cause an error wraps, one level down, and the error itself
    when it wraps none. *)
Definition Cause (e : Error) : Error :=
  match e with
  | New _ => e
  | Wrap cause _ => cause
  end.

(** The chain of an error, outermost first. *)
Fixpoint chain (e : Error) : list Error :=
  match e with
  | New _ => [e]
  | Wrap cause _ => e :: chain cause
  end.

(** Modelled from the spec: [errors.GetErrorStack], which the errors
    library defines; the spec has the stack bounded by [depth] frames. *)
Definition GetErrorStack (e : Error) (depth : nat) : list Error :=
  take depth (chain e).

Definition newline : string := String (Ascii.ascii_of_nat 10) "".

Definition printFrame (e : Error) : string := newline +:+ message e.

(** Modelled from the spec: [errors.GetErrorStackString], the message
    [stack(err, depth)] of the status writer: a header naming the error
    followed by one line for each frame of the bounded stack. *)
Definition GetErrorStackString (e : Error) (depth : nat) : string :=
  newline +:+ "Error - " +:+ message e +:+ newline +:+ "Call stack:"
    +:+ String.concat "" (map printFrame (GetErrorStack e depth)).

End errors.

(** Go's [error] interface: [None] is nil. *)
Definition error := option errors.Error.

(** ** Package strconv *)

Module strconv.

(** [strconv.ParseBool]: the value and whether parsing succeeded. *)
Definition ParseBool (str : string) : bool * bool :=
  if bool_decide (str ∈ ["1"; "t"; "T"; "TRUE"; "true"; "True"]) then (true, true)
  else if bool_decide (str ∈ ["0"; "f"; "F"; "FALSE"; "false"; "False"]) then (false, true)
  else (false, false).

End strconv.

(** ** Package validation (k8s.io/apimachinery): a collaborator *)

Module validation.

(** [validation.IsQualifiedName] returns the list of complaints about a
    name; the name is valid when the list is empty. *)
Class API := { IsQualifiedName : string -> list string }.

End validation.

(** ** Package abstract: platform defaults *)

Module abstract.

Class Defaults := { DefaultReadinessTimeoutSeconds : Z }.

End abstract.

(** ** Package scaler_types (github.com/v3io/scaler-types) *)

Module scaler_types.

(** Modelled from the spec: the enumeration of scale events is declared
    in the scaler library; of its events the operator emits these three.
    [ScaleEvent] is a string type in Go; [NoScaleEvent] is its zero value. *)
Inductive ScaleEvent : Type :=
| NoScaleEvent
| ResourceUpdatedScaleEvent
| ScaleFromZeroCompletedScaleEvent
| ScaleToZeroCompletedScaleEvent.

#[global] Instance ScaleEvent_eq_dec : EqDecision ScaleEvent.
Proof. solve_decision. Defined.

End scaler_types.

(** ** Package functionconfig *)

Module functionconfig.

(** Modelled from the spec: the enumeration of function states, which
    package functionconfig declares.  [FunctionState] is a string type in
    Go; [FunctionStateUnset] is its zero value. *)
Inductive FunctionState : Type :=
| FunctionStateUnset
| FunctionStateBuilding
| FunctionStateWaitingForResourceConfiguration
| FunctionStateWaitingForScaleResourcesFromZero
| FunctionStateWaitingForScaleResourcesToZero
| FunctionStateReady
| FunctionStateScaledToZero
| FunctionStateImported
| FunctionStateError
| FunctionStateUnhealthy.

#[global] Instance FunctionState_eq_dec : EqDecision FunctionState.
Proof. solve_decision. Defined.

Record ScaleToZeroStatus : Type := {
  LastScaleEvent : scaler_types.ScaleEvent;
  LastScaleEventTime : option time.Time
}.

(** Modelled from the spec: the status sub-document ([state], [message],
    [logs], [httpPort] and the optional [scaleToZero]). *)
Record Status : Type := {
  State : FunctionState;
  Message : string;
  Logs : list string;
  ScaleToZero : option ScaleToZeroStatus;
  HTTPPort : Z
}.

(** Modelled from the spec: the function spec, opaque to the operator
    except for the readiness timeout. *)
Record Spec : Type := {
  ReadinessTimeoutSeconds : Z
}.

(** Modelled from the spec: membership of a state in a slice of states. *)
Fixpoint FunctionStateInSlice (state : FunctionState) (states : list FunctionState) : bool :=
  match states with
  | [] => false
  | s :: rest => if bool_decide (s = state) then true else FunctionStateInSlice state rest
  end.

(** Modelled from the spec: the key of the skip-deploy marker. *)
Definition FunctionAnnotationSkipDeploy : string := "skip-deploy".

(** Modelled from the spec: the [skip-deploy] marker is boolean-valued,
    and a function is skipped when it is present with a truthy value. *)
Definition ShouldSkipDeploy (annotations : gmap string string) : bool :=
  match annotations !! FunctionAnnotationSkipDeploy with
  | Some value => fst (strconv.ParseBool value)
  | None => false
  end.

End functionconfig.

(** ** Package v1 (k8s.io/api/core/v1): services *)

Module v1.

Record ServicePort : Type := {
  Name : string;
  NodePort : Z
}.

Record ServiceSpec : Type := {
  Ports : list ServicePort
}.

Record Service : Type := {
  Spec : ServiceSpec
}.

End v1.

(** ** Package nuclioio: the NuclioFunction custom resource *)

Module nuclioio.

Record NuclioFunction : Type := {
  Name : string;
  Namespace : string;
  Annotations : gmap string string;
  Spec : functionconfig.Spec;
  Status : functionconfig.Status
}.

(** [function.Status = status] on a copy of the object. *)
Definition withStatus (f : NuclioFunction) (status : functionconfig.Status) : NuclioFunction :=
  {| Name := Name f;
     Namespace := Namespace f;
     Annotations := Annotations f;
     Spec := Spec f;
     Status := status |}.

End nuclioio.

(** ** Go run time: outcomes, the heap of function objects, the trace *)

(** A call either returns a value or panics with a value. *)
Inductive outcome (A : Type) : Type :=
| Returned (a : A)
| Panicked (v : errors.Error).

Arguments Returned {A} a.
Arguments Panicked {A} v.

(** The panic of dereferencing a nil pointer. *)
Definition nilDereference : errors.Error :=
  errors.New "runtime error: invalid memory address or nil pointer dereference".

(** A [*nuclioio.NuclioFunction]: nil, or the address of a cell of the heap. *)
Definition FunctionPtr := option nat.

(** A [runtime.Object] handed to the handler: a function pointer, or an
    object of another kind. *)
Inductive Object : Type :=
| FunctionObject (function : FunctionPtr)
| OtherObject (kind : string).

(** The type assertion of [object] to a function pointer. *)
Definition assertFunction (object : Object) : FunctionPtr * bool :=
  match object with
  | FunctionObject function => (function, true)
  | OtherObject _ => (None, false)
  end.

(** ** Package functionres: the resource client, a collaborator *)

Module functionres.

(** Modelled from the spec: the name of the container's HTTP port. *)
Definition ContainerHTTPPortName : string := "http".

(** The handle on the child resources; [Service()] yields the service
    (possibly nil) and an error, or panics. *)
Record Resources : Type := {
  Service : outcome (option v1.Service * error)
}.

(** The [Client] interface.  A method is given by what a call with the
    given arguments yields: its results, or a panic.  The function object
    a method is handed is not changed by it. *)
Record Client : Type := {
  CreateOrUpdate :
    context.Context -> nuclioio.NuclioFunction -> string -> outcome (option Resources * error);
  WaitAvailable : context.Context -> string -> string -> outcome error;
  Delete : context.Context -> string -> string -> outcome error
}.

End functionres.

(** What the logger is handed as the value of a key. *)
Inductive LogValue : Type :=
| LogString (s : string)
| LogState (state : functionconfig.FunctionState)
| LogScaleEvent (event : scaler_types.ScaleEvent)
| LogStatus (status : functionconfig.Status)
| LogFunction (function : nuclioio.NuclioFunction)
| LogFunctionPtr (function : FunctionPtr)
| LogError (err : errors.Error).

Inductive LogLevel : Type := DebugLevel | InfoLevel | WarnLevel | ErrorLevel.

(** The calls a handler makes to the outside, in order. *)
Inductive Event : Type :=
| EvLog (level : LogLevel) (message : string) (args : list (string * LogValue))
| EvResourcesCreateOrUpdate
    (ctx : context.Context) (function : nuclioio.NuclioFunction) (imagePullSecrets : string)
| EvResourcesWaitAvailable (ctx : context.Context) (namespace name : string)
| EvResourcesDelete (ctx : context.Context) (namespace name : string)
| EvResourcesService
| EvUpdate (namespace : string) (function : nuclioio.NuclioFunction)
| EvCancel (ctx : context.Context).

(** The memory a handler works on: the function objects by address, and the
    wall clock, read by [time.Now] one reading after the other. *)
Record World : Type := {
  heap : list nuclioio.NuclioFunction;
  clock : nat -> time.Time;
  ticks : nat
}.

Definition withHeap (w : World) (h : list nuclioio.NuclioFunction) : World :=
  {| heap := h; clock := clock w; ticks := ticks w |}.

(** The world once the clock has been read. *)
Definition tick (w : World) : World :=
  {| heap := heap w; clock := clock w; ticks := S (ticks w) |}.

(** A run of a computation: how it ended, the world it left, what it emitted. *)
Record Run (A : Type) : Type := {
  result : outcome A;
  world : World;
  trace : list Event
}.

Arguments result {A} _.
Arguments world {A} _.
Arguments trace {A} _.

Definition Go (A : Type) : Type := World -> Run A.

#[global] Instance Go_ret : MRet Go := fun A a w =>
  {| result := Returned a; world := w; trace := [] |}.

(** A run that comes after the events [t] were emitted. *)
Definition after {A : Type} (t : list Event) (r : Run A) : Run A :=
  {| result := result r; world := world r; trace := t ++ trace r |}.

#[global] Instance Go_bind : MBind Go := fun A B k m w =>
  let r := m w in
  match result r with
  | Returned a => after (trace r) (k a (world r))
  | Panicked v => {| result := Panicked v; world := world r; trace := trace r |}
  end.

Definition panic {A : Type} (v : errors.Error) : Go A := fun w =>
  {| result := Panicked v; world := w; trace := [] |}.

Definition emit (e : Event) : Go unit := fun w =>
  {| result := Returned tt; world := w; trace := [e] |}.

(** A call to a collaborator: it is recorded, and yields what the
    collaborator yields. *)
Definition call {A : Type} (e : Event) (yield : outcome A) : Go A := fun w =>
  {| result := yield; world := w; trace := [e] |}.

(** Reading through a function pointer; a nil pointer panics (and so does an
    address outside the heap, which a Go program cannot hold). *)
Definition load (function : FunctionPtr) : Go nuclioio.NuclioFunction := fun w =>
  match function with
  | Some l =>
      match heap w !! l with
      | Some f => {| result := Returned f; world := w; trace := [] |}
      | None => {| result := Panicked nilDereference; world := w; trace := [] |}
      end
  | None => {| result := Panicked nilDereference; world := w; trace := [] |}
  end.

(** Writing through a function pointer. *)
Definition store (function : FunctionPtr) (f : nuclioio.NuclioFunction) : Go unit := fun w =>
  match function with
  | Some l =>
      match heap w !! l with
      | Some _ =>
          {| result := Returned tt; world := withHeap w (<[l := f]> (heap w)); trace := [] |}
      | None => {| result := Panicked nilDereference; world := w; trace := [] |}
      end
  | None => {| result := Panicked nilDereference; world := w; trace := [] |}
  end.

(** [time.Now()] *)
Definition Now : Go time.Time := fun w =>
  {| result := Returned (clock w (ticks w)); world := tick w; trace := [] |}.

(** A deferred call sees whether the function is panicking and says whether
    it still is afterwards ([None] once recovered). *)
Definition Deferred : Type := option errors.Error -> Go (option errors.Error).

(** [defer d; body] in a function whose result is unnamed: the deferred call
    runs when the body returns or panics; after a recovered panic the
    function returns the zero value of its result type. *)
Definition defer {A : Type} (zero : A) (d : Deferred) (body : Go A) : Go A := fun w =>
  let r := body w in
  let panicking := match result r with Returned _ => None | Panicked v => Some v end in
  let r' := d panicking (world r) in
  {| result :=
       match result r' with
       | Returned None =>
           match result r with
           | Returned a => Returned a
           | Panicked _ => Returned zero
           end
       | Returned (Some v) => Panicked v
       | Panicked v => Panicked v
       end;
     world := world r';
     trace := trace r ++ trace r' |}.

(** The logger: the arguments are evaluated by the caller. *)
Definition logWith (level : LogLevel) (message : string) (args : list (string * LogValue)) : Go unit :=
  emit (EvLog level message args).

(** ** Package common: panic containment *)

Module common.

(** Modelled from the spec: [CatchAndLogPanicWithOptions], which package
    common defines.  Deferred by a handler, it is the panic-recovery
    boundary: on a panic it recovers, logs the panic with the given
    arguments, hands the panic as an error to the custom handler, and does
    not raise the panic again. *)
Definition CatchAndLogPanicWithOptions
    (ctx : context.Context) (actionName : string)
    (Args : list (string * LogValue))
    (CustomHandler : errors.Error -> Go unit) : Deferred :=
  fun panicking =>
    match panicking with
    | None => mret None
    | Some panicError =>
        logWith ErrorLevel ("Panic caught while " +:+ actionName)
          (("err", LogError panicError) :: Args);;
        CustomHandler panicError;;
        mret None
    end.

End common.

(** ** Package controller: the function operator *)

(** The generated client set, by what [NuclioFunctions(namespace).Update]
    returns for a function object: the error of the store, or nil.  The
    store answers every call; the object it is handed is not changed. *)
Record NuclioClientSet : Type := {
  NuclioFunctionsUpdate : string -> nuclioio.NuclioFunction -> error
}.

Record Controller : Type := {
  namespace : string;
  nuclioClientSet : NuclioClientSet
}.

Record functionOperator : Type := {
  controller : Controller;
  imagePullSecrets : string;
  functionresClient : functionres.Client
}.

(** The zero value of [functionconfig.Status]. *)
Definition zeroStatus : functionconfig.Status :=
  {| functionconfig.State := functionconfig.FunctionStateUnset;
     functionconfig.Message := "";
     functionconfig.Logs := [];
     functionconfig.ScaleToZero := None;
     functionconfig.HTTPPort := 0 |}.

(** The composite literal [functionconfig.Status{State: state, Message: message}]. *)
Definition statusOf (state : functionconfig.FunctionState) (message : string) : functionconfig.Status :=
  {| functionconfig.State := state;
     functionconfig.Message := message;
     functionconfig.Logs := [];
     functionconfig.ScaleToZero := None;
     functionconfig.HTTPPort := 0 |}.

Definition statesToRespond : list functionconfig.FunctionState :=
  [ functionconfig.FunctionStateWaitingForResourceConfiguration;
    functionconfig.FunctionStateWaitingForScaleResourcesFromZero;
    functionconfig.FunctionStateWaitingForScaleResourcesToZero;
    functionconfig.FunctionStateReady;
    functionconfig.FunctionStateScaledToZero ].

Definition waitingStates : list functionconfig.FunctionState :=
  [ functionconfig.FunctionStateWaitingForResourceConfiguration;
    functionconfig.FunctionStateWaitingForScaleResourcesFromZero;
    functionconfig.FunctionStateWaitingForScaleResourcesToZero ].

(** The switch on the waiting state; without a default case the two
    variables keep their zero values. *)
Definition scaleTransition (state : functionconfig.FunctionState)
  : scaler_types.ScaleEvent * functionconfig.FunctionState :=
  match state with
  | functionconfig.FunctionStateWaitingForScaleResourcesToZero =>
      (scaler_types.ScaleToZeroCompletedScaleEvent, functionconfig.FunctionStateScaledToZero)
  | functionconfig.FunctionStateWaitingForScaleResourcesFromZero =>
      (scaler_types.ScaleFromZeroCompletedScaleEvent, functionconfig.FunctionStateReady)
  | functionconfig.FunctionStateWaitingForResourceConfiguration =>
      (scaler_types.ResourceUpdatedScaleEvent, functionconfig.FunctionStateReady)
  | _ => (scaler_types.NoScaleEvent, functionconfig.FunctionStateUnset)
  end.

(** The loop of [getFunctionHTTPPort] over the service ports. *)
Fixpoint scanPorts (ports : list v1.ServicePort) (httpPort : Z) : Z :=
  match ports with
  | [] => httpPort
  | port :: rest =>
      if String.eqb (v1.Name port) functionres.ContainerHTTPPortName
      then v1.NodePort port
      else scanPorts rest httpPort
  end.

Definition servicePort (service : option v1.Service) : Z :=
  match service with
  | Some service =>
      if negb (length (v1.Ports (v1.Spec service)) =? 0)%nat
      then scanPorts (v1.Ports (v1.Spec service)) 0
      else 0
  | None => 0
  end.

Definition getFunctionHTTPPort (functionResources : option functionres.Resources) : Go (Z * error) :=
  r ← match functionResources with
      | Some resources => call EvResourcesService (functionres.Service resources)
      | None => panic nilDereference
      end;
  match snd r with
  | Some err => mret (0, Some (errors.Wrap err "Failed to get function service"))
  | None => mret (servicePort (fst r), None)
  end.

Definition setFunctionStatus (fo : functionOperator) (function : FunctionPtr)
    (status : functionconfig.Status) : Go error :=
  f ← load function;
  logWith DebugLevel "Setting function state"
    [("name", LogString (nuclioio.Name f)); ("status", LogStatus status)];;
  store function (nuclioio.withStatus f status);;
  f ← load function;
  call (EvUpdate (nuclioio.Namespace f) f)
    (Returned (NuclioFunctionsUpdate (nuclioClientSet (controller fo)) (nuclioio.Namespace f) f)).

Definition setFunctionError (fo : functionOperator) (function : FunctionPtr)
    (functionErrorState : functionconfig.FunctionState) (err : errors.Error) : Go error :=
  f ← load function;
  logWith WarnLevel "Setting function error"
    [("functionErrorState", LogState functionErrorState);
     ("functionName", LogString (nuclioio.Name f));
     ("err", LogError err)];;
  setStatusErr ← setFunctionStatus fo function
    (statusOf functionErrorState (errors.GetErrorStackString err 10));
  match setStatusErr with
  | Some setStatusErr =>
      logWith WarnLevel "Failed to update function on error"
        [("setStatusErr", LogError (errors.Cause setStatusErr))]
  | None => mret tt
  end;;
  mret (Some err).

Definition setFunctionScaleToZeroStatus (ctx : context.Context)
    (functionStatus : functionconfig.Status) (scaleToZeroEvent : scaler_types.ScaleEvent)
  : Go (functionconfig.Status * error) :=
  logWith DebugLevel "Setting scale to zero status"
    [("LastScaleEvent", LogScaleEvent scaleToZeroEvent)];;
  now ← Now;
  mret ({| functionconfig.State := functionconfig.State functionStatus;
           functionconfig.Message := functionconfig.Message functionStatus;
           functionconfig.Logs := functionconfig.Logs functionStatus;
           functionconfig.ScaleToZero :=
             Some {| functionconfig.LastScaleEvent := scaleToZeroEvent;
                     functionconfig.LastScaleEventTime := Some now |};
           functionconfig.HTTPPort := functionconfig.HTTPPort functionStatus |},
        None).

(** [defer cancel()] *)
Definition cancel (ctx : context.Context) : Deferred :=
  fun panicking => emit (EvCancel ctx);; mret panicking.

Definition Delete (fo : functionOperator) (ctx : context.Context) (namespace name : string) : Go error :=
  logWith DebugLevel "Deleting function"
    [("name", LogString name); ("namespace", LogString namespace)];;
  call (EvResourcesDelete ctx namespace name)
    (functionres.Delete (functionresClient fo) ctx namespace name).

Section Handler.

Context {validator : validation.API} {platform : abstract.Defaults}.

(** The readiness timeout of a function, in seconds: the default stands
    in for 0. *)
Definition readinessTimeoutOf (f : nuclioio.NuclioFunction) : Z :=
  let readinessTimeout := functionconfig.ReadinessTimeoutSeconds (nuclioio.Spec f) in
  if readinessTimeout =? 0 then abstract.DefaultReadinessTimeoutSeconds
  else readinessTimeout.

(** The context of the readiness wait, derived at the instant [now]. *)
Definition readinessContext (ctx : context.Context) (now : time.Time)
    (f : nuclioio.NuclioFunction) : context.Context :=
  context.WithDeadline ctx (time.Add now (time.Seconds (readinessTimeoutOf f))).

(** The readiness wait and what follows it: the part of [CreateOrUpdate]
    that runs under [defer cancel()]. *)
Definition waitAndFinalize (fo : functionOperator) (ctx waitContext : context.Context)
    (function : FunctionPtr) (f : nuclioio.NuclioFunction)
    (resources : option functionres.Resources) : Go error :=
  err ← call (EvResourcesWaitAvailable waitContext (nuclioio.Namespace f) (nuclioio.Name f))
        (functionres.WaitAvailable (functionresClient fo) waitContext
           (nuclioio.Namespace f) (nuclioio.Name f));
  match err with
  | Some err =>
      setFunctionError fo function functionconfig.FunctionStateUnhealthy
        (errors.Wrap err "Failed to wait for function resources to be available")
  | None =>
      let state := functionconfig.State (nuclioio.Status f) in
      if functionconfig.FunctionStateInSlice state waitingStates then
        let scaleEvent := fst (scaleTransition state) in
        let finalState := snd (scaleTransition state) in
        r ← getFunctionHTTPPort resources;
        match snd r with
        | Some err => mret (Some (errors.Wrap err "Failed to get function http port"))
        | None =>
            let functionStatus :=
              {| functionconfig.State := finalState;
                 functionconfig.Message := "";
                 functionconfig.Logs := [];
                 functionconfig.ScaleToZero := None;
                 functionconfig.HTTPPort := fst r |} in
            s ← setFunctionScaleToZeroStatus ctx functionStatus scaleEvent;
            match snd s with
            | Some err =>
                mret (Some (errors.Wrap err "Failed setting function scale to zero status"))
            | None => setFunctionStatus fo function (fst s)
            end
        end
      else mret None
  end.

(** The processing of a function object: the body of [CreateOrUpdate]
    below the panic-recovery boundary.  The object is not written before
    the status writes that end the handler, so the one read at the top
    serves every field access of the body. *)
Definition process (fo : functionOperator) (ctx : context.Context)
    (function : FunctionPtr) : Go error :=
  f ← load function;
  let errorMessages := validation.IsQualifiedName (nuclioio.Name f) in
  if negb (length errorMessages =? 0)%nat then
    let joinedErrorMessage := String.concat ", " errorMessages in
    mret (Some (errors.New
      ("Function name doesn't conform to k8s naming convention. Errors: "
         +:+ joinedErrorMessage)))
  else if negb (functionconfig.FunctionStateInSlice
                  (functionconfig.State (nuclioio.Status f)) statesToRespond) then
    logWith DebugLevel
      "NuclioFunction is not waiting for resource creation or ready, skipping create/update"
      [("name", LogString (nuclioio.Name f));
       ("state", LogState (functionconfig.State (nuclioio.Status f)));
       ("namespace", LogString (nuclioio.Namespace f))];;
    mret None
  else if functionconfig.ShouldSkipDeploy (nuclioio.Annotations f) then
    logWith InfoLevel "Skipping function deploy"
      [("name", LogString (nuclioio.Name f));
       ("state", LogState (functionconfig.State (nuclioio.Status f)));
       ("namespace", LogString (nuclioio.Namespace f))];;
    setFunctionStatus fo function (statusOf functionconfig.FunctionStateImported "")
  else
    logWith DebugLevel "Ensuring function resources" [("functionMeta", LogFunction f)];;
    r ← call (EvResourcesCreateOrUpdate ctx f (imagePullSecrets fo))
          (functionres.CreateOrUpdate (functionresClient fo) ctx f (imagePullSecrets fo));
    match snd r with
    | Some err =>
        setFunctionError fo function functionconfig.FunctionStateError
          (errors.Wrap err "Failed to create/update function")
    | None =>
        now ← Now;
        let waitContext := readinessContext ctx now f in
        defer None (cancel waitContext)
          (waitAndFinalize fo ctx waitContext function f (fst r))
    end.

(** [CreateOrUpdate] handles creation/update of an object. *)
Definition CreateOrUpdate (fo : functionOperator) (ctx : context.Context)
    (object : Object) : Go error :=
  let function := fst (assertFunction object) in
  let objectIsFunction := snd (assertFunction object) in
  if negb objectIsFunction then
    setFunctionError fo None functionconfig.FunctionStateError
      (errors.New "Received unexpected object, expected function")
  else
    defer None
      (common.CatchAndLogPanicWithOptions ctx "nucliofunction.CreateOrUpdate"
         [("function", LogFunctionPtr function)]
         (fun panicError =>
            setFunctionError fo function functionconfig.FunctionStateError
              (errors.Wrap panicError "Failed to create/update function");;
            mret tt))
      (process fo ctx function).

End Handler.

(** ** What the error path writes *)

(** The status [setFunctionError] writes for an error. *)
Definition errorStatus (state : functionconfig.FunctionState) (err : errors.Error)
  : functionconfig.Status :=
  statusOf state (errors.GetErrorStackString err 10).

(** What [setFunctionError] emits on a function object [f]. *)
Definition errorTrace (fo : functionOperator) (f : nuclioio.NuclioFunction)
    (state : functionconfig.FunctionState) (err : errors.Error) : list Event :=
  [ EvLog WarnLevel "Setting function error"
      [("functionErrorState", LogState state);
       ("functionName", LogString (nuclioio.Name f));
       ("err", LogError err)];
    EvLog DebugLevel "Setting function state"
      [("name", LogString (nuclioio.Name f)); ("status", LogStatus (errorStatus state err))];
    EvUpdate (nuclioio.Namespace f) (nuclioio.withStatus f (errorStatus state err)) ]
  ++ match NuclioFunctionsUpdate (nuclioClientSet (controller fo)) (nuclioio.Namespace f)
             (nuclioio.withStatus f (errorStatus state err)) with
     | Some setStatusErr =>
         [ EvLog WarnLevel "Failed to update function on error"
             [("setStatusErr", LogError (errors.Cause setStatusErr))] ]
     | None => []
     end.

(** ** Observations on a trace *)

(** The objects handed to the client set's [Update], in order: the status
    writes issued. *)
Definition statusWrites (tr : list Event) : list nuclioio.NuclioFunction :=
  flat_map (fun e => match e with EvUpdate _ f => [f] | _ => [] end) tr.

(** The calls made to the resource client's [CreateOrUpdate]. *)
Definition resourceCreations (tr : list Event) : list nuclioio.NuclioFunction :=
  flat_map (fun e => match e with EvResourcesCreateOrUpdate _ f _ => [f] | _ => [] end) tr.

(** A run reaches resource creation: the resource client's
    [CreateOrUpdate] was called. *)
Definition provisions {A : Type} (r : Run A) : Prop :=
  resourceCreations (trace r) <> [].

(** The scale events stamped, as [setFunctionScaleToZeroStatus] announces
    them to the logger. *)
Definition stampedScaleEvents (tr : list Event) : list scaler_types.ScaleEvent :=
  flat_map (fun e => match e with
                     | EvLog _ _ [(_, LogScaleEvent event)] => [event]
                     | _ => []
                     end) tr.

(** The status of the function object at an address. *)
Definition statusAt (w : World) (l : nat) : option functionconfig.Status :=
  nuclioio.Status <$> heap w !! l.

(** ** The specification's reading of the handler *)

(** The mapping of a waiting state to the scale event stamped and the
    state entered, as the specification words it. *)
Inductive finalizes :
  functionconfig.FunctionState -> scaler_types.ScaleEvent -> functionconfig.FunctionState -> Prop :=
| finalizes_to_zero :
    finalizes functionconfig.FunctionStateWaitingForScaleResourcesToZero
      scaler_types.ScaleToZeroCompletedScaleEvent functionconfig.FunctionStateScaledToZero
| finalizes_from_zero :
    finalizes functionconfig.FunctionStateWaitingForScaleResourcesFromZero
      scaler_types.ScaleFromZeroCompletedScaleEvent functionconfig.FunctionStateReady
| finalizes_configuration :
    finalizes functionconfig.FunctionStateWaitingForResourceConfiguration
      scaler_types.ResourceUpdatedScaleEvent functionconfig.FunctionStateReady.

(** The status document [{state, httpPort, scaleToZero = {event, time}}]
    with every other field empty. *)
Definition finalizedStatus (state : functionconfig.FunctionState) (httpPort : Z)
    (event : scaler_types.ScaleEvent) (now : time.Time) : functionconfig.Status :=
  {| functionconfig.State := state;
     functionconfig.Message := "";
     functionconfig.Logs := [];
     functionconfig.ScaleToZero :=
       Some {| functionconfig.LastScaleEvent := event;
               functionconfig.LastScaleEventTime := Some now |};
     functionconfig.HTTPPort := httpPort |}.

(** The earlier of an optional deadline and an instant. *)
Definition earliest (deadline : option time.Time) (t : time.Time) : time.Time :=
  match deadline with
  | Some d => Z.min d t
  | None => t
  end.

(** A port of the given name is the first of that name in a list of ports. *)
Definition firstNamed (name : string) (port : v1.ServicePort) (ports : list v1.ServicePort) : Prop :=
  exists before after,
    ports = (before ++ port :: after)%list
    /\ v1.Name port = name
    /\ Forall (fun p => v1.Name p <> name) before.

(** The ports a service exposes (none for a nil service). *)
Definition portsOf (service : option v1.Service) : list v1.ServicePort :=
  match service with
  | Some service => v1.Ports (v1.Spec service)
  | None => []
  end.

(** ** Further observations on a run *)

(** The contexts handed to the resource client's [WaitAvailable], in order. *)
Definition readinessWaits (tr : list Event) : list context.Context :=
  flat_map (fun e => match e with EvResourcesWaitAvailable c _ _ => [c] | _ => [] end) tr.

(** The contexts cancelled, in order. *)
Definition cancellations (tr : list Event) : list context.Context :=
  flat_map (fun e => match e with EvCancel c => [c] | _ => [] end) tr.

(** The run that ends in the recovery of a panic [p] of the processing,
    raised in the world [w1] after the events [t]: the panic is logged and
    the custom handler of [CreateOrUpdate] sets the error status. *)
Definition recovered (fo : functionOperator) (l : nat) (f : nuclioio.NuclioFunction)
    (w1 : World) (t : list Event) (p : errors.Error) : Run error :=
  let err := errors.Wrap p "Failed to create/update function" in
  {| result := Returned None;
     world := withHeap w1
                (<[l := nuclioio.withStatus f
                          (errorStatus functionconfig.FunctionStateError err)]> (heap w1));
     trace := t ++ EvLog ErrorLevel ("Panic caught while " +:+ "nucliofunction.CreateOrUpdate")
                     [("err", LogError p); ("function", LogFunctionPtr (Some l))]
                :: errorTrace fo f functionconfig.FunctionStateError err |}.

(** The conditions of the provisioning path, as the handler tests them in
    turn: a valid name, a state the operator responds to, no skip-deploy. *)
Definition provisioning {validator : validation.API} (f : nuclioio.NuclioFunction) : bool :=
  (length (validation.IsQualifiedName (nuclioio.Name f)) =? 0)%nat
  && functionconfig.FunctionStateInSlice
       (functionconfig.State (nuclioio.Status f)) statesToRespond
  && negb (functionconfig.ShouldSkipDeploy (nuclioio.Annotations f)).

(** A message is the stack of an error cut at [depth] frames, as the
    specification has the messages of error states: the header naming the
    error, then one line for each of at most [depth] frames of the chain of
    the error, outermost first. *)
Definition stackOfDepth (depth : nat) (e : errors.Error) (message : string) : Prop :=
  exists frames,
    (length frames <= depth)%nat
    /\ frames `prefix_of` errors.chain e
    /\ message
       = errors.newline +:+ "Error - " +:+ errors.message e
         +:+ errors.newline +:+ "Call stack:"
         +:+ String.concat "" (map errors.printFrame frames).

(** The states the handler may write: the two it finalizes to, the mark of
    an imported function, and the two error states. *)
Definition writtenStates : list functionconfig.FunctionState :=
  [ functionconfig.FunctionStateReady;
    functionconfig.FunctionStateScaledToZero;
    functionconfig.FunctionStateImported;
    functionconfig.FunctionStateError;
    functionconfig.FunctionStateUnhealthy ].

(** ** Fixtures: concrete collaborators and objects *)

Module fixtures.

Definition isAlphanumeric (c : Ascii.ascii) : bool :=
  let n := Ascii.nat_of_ascii c in
  ((48 <=? n) && (n <=? 57) || (65 <=? n) && (n <=? 90) || (97 <=? n) && (n <=? 122))%nat.

Definition isExtended (c : Ascii.ascii) : bool :=
  isAlphanumeric c || bool_decide (c ∈ String.list_ascii_of_string "-_.").

Definition isNamePart (name : string) : bool :=
  let cs := String.list_ascii_of_string name in
  match cs, rev cs with
  | first :: _, last :: _ => isAlphanumeric first && isAlphanumeric last && forallb isExtended cs
  | _, _ => false
  end.

(** A validator in the manner of [validation.IsQualifiedName] on a name
    without a prefix: non-empty, at most 63 characters, alphanumeric with
    interior [-], [_] and [.]. *)
Definition nameValidator : validation.API :=
  {| validation.IsQualifiedName := fun value =>
       app
         (if String.eqb value "" then ["name part must be non-empty"]
          else if (63 <? String.length value)%nat
               then ["name part must be no more than 63 characters"]
               else [])
         (if isNamePart value then []
          else ["name part must consist of alphanumeric characters, '-', '_' or '.'"]) |}.

Definition defaults : abstract.Defaults :=
  {| abstract.DefaultReadinessTimeoutSeconds := 120 |}.

Definition httpService (nodePort : Z) : v1.Service :=
  {| v1.Spec := {| v1.Ports :=
       [ {| v1.Name := "metrics"; v1.NodePort := 30900 |};
         {| v1.Name := "http"; v1.NodePort := nodePort |} ] |} |}.

Definition resourcesOf (service : outcome (option v1.Service * error)) : functionres.Resources :=
  {| functionres.Service := service |}.

(** A resource client that answers every call with the given results. *)
Definition client (created : outcome (option functionres.Resources * error))
    (available : outcome error) : functionres.Client :=
  {| functionres.CreateOrUpdate := fun _ _ _ => created;
     functionres.WaitAvailable := fun _ _ _ => available;
     functionres.Delete := fun _ _ _ => Returned None |}.

Definition healthyClient (nodePort : Z) : functionres.Client :=
  client (Returned (Some (resourcesOf (Returned (Some (httpService nodePort), None))), None))
         (Returned None).

Definition operator (c : functionres.Client) (updated : error) : functionOperator :=
  {| controller :=
       {| namespace := "nuclio";
          nuclioClientSet := {| NuclioFunctionsUpdate := fun _ _ => updated |} |};
     imagePullSecrets := "registry-credentials";
     functionresClient := c |}.

Definition staleStatus (state : functionconfig.FunctionState) : functionconfig.Status :=
  {| functionconfig.State := state;
     functionconfig.Message := "previous message";
     functionconfig.Logs := ["previous log"];
     functionconfig.ScaleToZero := None;
     functionconfig.HTTPPort := 31000 |}.

Definition function (name : string) (annotations : gmap string string)
    (readinessTimeout : Z) (state : functionconfig.FunctionState) : nuclioio.NuclioFunction :=
  {| nuclioio.Name := name;
     nuclioio.Namespace := "nuclio";
     nuclioio.Annotations := annotations;
     nuclioio.Spec := {| functionconfig.ReadinessTimeoutSeconds := readinessTimeout |};
     nuclioio.Status := staleStatus state |}.

(** The function of the happy path: valid name, no annotations, default
    readiness timeout, waiting for its resources to be configured. *)
Definition configuring : nuclioio.NuclioFunction :=
  function "fn1" ∅ 0 functionconfig.FunctionStateWaitingForResourceConfiguration.

(** A second function object, ready, for the worlds that hold more than
    one. *)
Definition bystander : nuclioio.NuclioFunction :=
  function "fn2" ∅ 30 functionconfig.FunctionStateReady.

(** A world holding the bystander at address 0 and a function at address
    1, with the clock of [worldOf]. *)
Definition sharedWorld (f : nuclioio.NuclioFunction) : World :=
  {| heap := [bystander; f]; clock := fun n => 1000 + 7 * Z.of_nat n; ticks := 0 |}.

(** A resource client that hands back no resources and no error. *)
Definition emptyHandedClient : functionres.Client :=
  client (Returned (None, None)) (Returned None).

(** A world holding one function object, at address 0; the clock reads
    1000, 1007, 1014, ... *)
Definition worldOf (f : nuclioio.NuclioFunction) : World :=
  {| heap := [f]; clock := fun n => 1000 + 7 * Z.of_nat n; ticks := 0 |}.

End fixtures.

(** * Properties *)

(** ** How computations run *)

Section Runs.

Context {A B : Type}.
Implicit Types (m : Go A) (k : A -> Go B) (w : World) (t : list Event).

Lemma after_nil (r : Run B) : after [] r = r.
Proof. destruct r; reflexivity. Qed.

Lemma after_after t t' (r : Run B) : after t (after t' r) = after (t ++ t') r.
Proof. unfold after; cbn [result world trace]. by rewrite app_assoc. Qed.

Lemma bind_returned m k w a w1 t :
  m w = {| result := Returned a; world := w1; trace := t |} ->
  (m ≫= k) w = after t (k a w1).
Proof. intros Hm. unfold mbind, Go_bind. by rewrite Hm. Qed.

Lemma bind_panicked m k w v w1 t :
  m w = {| result := Panicked v; world := w1; trace := t |} ->
  (m ≫= k) w = {| result := Panicked v; world := w1; trace := t |}.
Proof. intros Hm. unfold mbind, Go_bind. by rewrite Hm. Qed.

Lemma bind_ret (a : A) k w : (mret a ≫= k) w = k a w.
Proof. erewrite bind_returned by reflexivity. apply after_nil. Qed.

Lemma bind_call e (yield : outcome A) k w :
  (call e yield ≫= k) w =
  match yield with
  | Returned a => after [e] (k a w)
  | Panicked v => {| result := Panicked v; world := w; trace := [e] |}
  end.
Proof.
  destruct yield.
  - by erewrite bind_returned by reflexivity.
  - by erewrite bind_panicked by reflexivity.
Qed.

End Runs.

Section RunsOfPrimitives.

Context {B : Type}.

Lemma bind_log level message args (k : unit -> Go B) w :
  (logWith level message args ≫= k) w = after [EvLog level message args] (k tt w).
Proof. by erewrite bind_returned by reflexivity. Qed.

Lemma bind_emit e (k : unit -> Go B) w : (emit e ≫= k) w = after [e] (k tt w).
Proof. by erewrite bind_returned by reflexivity. Qed.

Lemma bind_Now (k : time.Time -> Go B) w : (Now ≫= k) w = k (clock w (ticks w)) (tick w).
Proof. erewrite bind_returned by reflexivity. apply after_nil. Qed.

Lemma bind_load l f (k : nuclioio.NuclioFunction -> Go B) w :
  heap w !! l = Some f ->
  (load (Some l) ≫= k) w = k f w.
Proof.
  intros Hl. erewrite bind_returned; [apply after_nil |].
  unfold load. by rewrite Hl.
Qed.

Lemma bind_load_nil (k : nuclioio.NuclioFunction -> Go B) w :
  (load None ≫= k) w = {| result := Panicked nilDereference; world := w; trace := [] |}.
Proof. by erewrite bind_panicked by reflexivity. Qed.

Lemma bind_store l f f' (k : unit -> Go B) w :
  heap w !! l = Some f ->
  (store (Some l) f' ≫= k) w = k tt (withHeap w (<[l := f']> (heap w))).
Proof.
  intros Hl. erewrite bind_returned; [apply after_nil |].
  unfold store. by rewrite Hl.
Qed.

End RunsOfPrimitives.

Lemma lookup_stored l f f' w :
  heap w !! l = Some f ->
  heap (withHeap w (<[l := f']> (heap w))) !! l = Some f'.
Proof.
  intros Hl. cbn [withHeap heap].
  apply list_lookup_insert_eq. by eapply lookup_lt_Some.
Qed.

(** Stepping through a computation: the equations of the primitives, then
    the projections of the run obtained. *)
Ltac run :=
  repeat first
    [ rewrite bind_ret
    | rewrite bind_log
    | rewrite bind_emit
    | rewrite bind_Now
    | rewrite bind_call
    | rewrite bind_load_nil
    | erewrite bind_load by eassumption
    | erewrite bind_store by eassumption
    | rewrite after_after
    | progress cbn [after result world trace fst snd app] ].

Lemma getFunctionHTTPPort_run resources w :
  getFunctionHTTPPort (Some resources) w =
  match functionres.Service resources with
  | Returned (service, Some err) =>
      {| result := Returned (0, Some (errors.Wrap err "Failed to get function service"));
         world := w; trace := [EvResourcesService] |}
  | Returned (service, None) =>
      {| result := Returned (servicePort service, None);
         world := w; trace := [EvResourcesService] |}
  | Panicked v => {| result := Panicked v; world := w; trace := [EvResourcesService] |}
  end.
Proof.
  unfold getFunctionHTTPPort. run.
  by destruct (functionres.Service resources) as [[service [err|]]|v].
Qed.

Lemma getFunctionHTTPPort_nil w :
  getFunctionHTTPPort None w =
  {| result := Panicked nilDereference; world := w; trace := [] |}.
Proof. unfold getFunctionHTTPPort. by erewrite bind_panicked by reflexivity. Qed.

Lemma setFunctionScaleToZeroStatus_run ctx state httpPort event w :
  setFunctionScaleToZeroStatus ctx
    {| functionconfig.State := state;
       functionconfig.Message := "";
       functionconfig.Logs := [];
       functionconfig.ScaleToZero := None;
       functionconfig.HTTPPort := httpPort |} event w =
  {| result := Returned (finalizedStatus state httpPort event (clock w (ticks w)), None);
     world := tick w;
     trace := [EvLog DebugLevel "Setting scale to zero status"
                 [("LastScaleEvent", LogScaleEvent event)]] |}.
Proof. unfold setFunctionScaleToZeroStatus. by run. Qed.

(** The run stated by a hypothesis, brought to a record of its three parts. *)
Ltac normalize_run H :=
  cbv zeta in H; unfold after, mret, Go_ret in H;
  cbn [result world trace fst snd app] in H.

Section RunsOfHelpers.

Context {validator : validation.API} {platform : abstract.Defaults}.
Variables (fo : functionOperator) (ctx : context.Context).
Variables (l : nat) (w : World) (f : nuclioio.NuclioFunction).
Hypothesis live : heap w !! l = Some f.

Lemma setFunctionStatus_run status :
  setFunctionStatus fo (Some l) status w =
  {| result := Returned (NuclioFunctionsUpdate (nuclioClientSet (controller fo))
                           (nuclioio.Namespace f) (nuclioio.withStatus f status));
     world := withHeap w (<[l := nuclioio.withStatus f status]> (heap w));
     trace := [EvLog DebugLevel "Setting function state"
                 [("name", LogString (nuclioio.Name f)); ("status", LogStatus status)];
               EvUpdate (nuclioio.Namespace f) (nuclioio.withStatus f status)] |}.
Proof.
  unfold setFunctionStatus. run.
  erewrite bind_load by (eapply lookup_stored; eassumption).
  unfold call. run. reflexivity.
Qed.

Lemma setFunctionError_run state err :
  setFunctionError fo (Some l) state err w =
  {| result := Returned (Some err);
     world := withHeap w (<[l := nuclioio.withStatus f (errorStatus state err)]> (heap w));
     trace := errorTrace fo f state err |}.
Proof.
  unfold setFunctionError. run.
  erewrite bind_returned by apply setFunctionStatus_run.
  unfold errorTrace, errorStatus.
  destruct (NuclioFunctionsUpdate _ _ _); run; reflexivity.
Qed.

End RunsOfHelpers.

Section RunsOfDefer.

Context {A : Type}.
Implicit Types (body : Go A) (zero : A).

Lemma defer_cancel zero c body w :
  defer zero (cancel c) body w =
  {| result := result (body w);
     world := world (body w);
     trace := trace (body w) ++ [EvCancel c] |}.
Proof.
  unfold defer, cancel. run.
  destruct (result (body w)); reflexivity.
Qed.

Lemma catch_returned zero ctx actionName Args CustomHandler body w a w1 t :
  body w = {| result := Returned a; world := w1; trace := t |} ->
  defer zero (common.CatchAndLogPanicWithOptions ctx actionName Args CustomHandler) body w =
  {| result := Returned a; world := w1; trace := t |}.
Proof.
  intros Hbody. unfold defer. rewrite Hbody.
  cbn [result world trace common.CatchAndLogPanicWithOptions mret Go_ret].
  by rewrite app_nil_r.
Qed.

Lemma catch_panicked zero ctx actionName Args CustomHandler body w v w1 t w2 t2 :
  body w = {| result := Panicked v; world := w1; trace := t |} ->
  CustomHandler v w1 = {| result := Returned tt; world := w2; trace := t2 |} ->
  defer zero (common.CatchAndLogPanicWithOptions ctx actionName Args CustomHandler) body w =
  {| result := Returned zero;
     world := w2;
     trace := t ++ EvLog ErrorLevel ("Panic caught while " +:+ actionName)
                     (("err", LogError v) :: Args) :: t2 |}.
Proof.
  intros Hbody Hhandler. unfold defer. rewrite Hbody.
  cbn [result world trace common.CatchAndLogPanicWithOptions].
  run. erewrite bind_returned by eassumption. run.
  by rewrite app_nil_r.
Qed.

End RunsOfDefer.

(** ** Membership in a slice of states *)

Lemma FunctionStateInSlice_elem_of state states :
  functionconfig.FunctionStateInSlice state states = true <-> state ∈ states.
Proof.
  induction states as [|s states IH]; cbn [functionconfig.FunctionStateInSlice].
  - split; [discriminate | intros Hin; inversion Hin].
  - case_bool_decide as Heq.
    + subst. split; [intros _; apply list_elem_of_here | done].
    + rewrite IH. split; [apply list_elem_of_further |].
      intros Hin. apply elem_of_cons in Hin as [Hhead|Htail]; [congruence | done].
Qed.

Lemma waitingStates_respond state :
  state ∈ waitingStates -> state ∈ statesToRespond.
Proof.
  intros Hin. apply FunctionStateInSlice_elem_of.
  apply FunctionStateInSlice_elem_of in Hin.
  destruct state; done.
Qed.

Lemma finalizes_waiting state event final :
  finalizes state event final ->
  state ∈ waitingStates /\ scaleTransition state = (event, final).
Proof.
  intros []; (split; [by apply FunctionStateInSlice_elem_of | reflexivity]).
Qed.

(** ** The scan of the service ports *)

Lemma scanPorts_first port ports httpPort :
  firstNamed functionres.ContainerHTTPPortName port ports ->
  scanPorts ports httpPort = v1.NodePort port.
Proof.
  intros (before & after & -> & Hname & Hbefore).
  induction Hbefore as [|p before Hp _ IH]; cbn [app scanPorts].
  - rewrite Hname. by rewrite String.eqb_refl.
  - apply String.eqb_neq in Hp. by rewrite Hp.
Qed.

Lemma scanPorts_none ports httpPort :
  Forall (fun p => v1.Name p <> functionres.ContainerHTTPPortName) ports ->
  scanPorts ports httpPort = httpPort.
Proof.
  induction 1 as [|p ports Hp _ IH]; cbn [scanPorts]; [done|].
  apply String.eqb_neq in Hp. by rewrite Hp.
Qed.

Lemma servicePort_scan service : servicePort service = scanPorts (portsOf service) 0.
Proof.
  destruct service as [service|]; cbn [servicePort portsOf]; [|done].
  by destruct (v1.Ports (v1.Spec service)).
Qed.

(** A list of ports has a first port of a given name, or none of that name. *)
Lemma firstNamed_or_none name ports :
  (exists port, firstNamed name port ports)
  \/ Forall (fun p => v1.Name p <> name) ports.
Proof.
  induction ports as [|p ports IH]; [by right|].
  destruct (decide (v1.Name p = name)) as [Heq|Hne].
  - left. exists p, [], ports. by repeat split.
  - destruct IH as [(port & before & after & -> & Hname & Hbefore)|Hnone].
    + left. exists port, (p :: before), after. repeat split; [done|]. by constructor.
    + right. by constructor.
Qed.

Lemma firstNamed_not_none name port ports :
  firstNamed name port ports ->
  Forall (fun p => v1.Name p <> name) ports -> False.
Proof.
  intros (before & after & -> & Hname & _) Hnone.
  apply Forall_app in Hnone as [_ Hnone]. by inversion Hnone.
Qed.

(** ** The deadline of the readiness wait *)

Lemma int64_upper z : time.int64 z < 2 ^ 63.
Proof.
  unfold time.int64.
  pose proof (Z.mod_pos_bound (z + 2 ^ 63) (2 ^ 64)). lia.
Qed.

Lemma int64_small z : - 2 ^ 63 <= z < 2 ^ 63 -> time.int64 z = z.
Proof.
  intros Hz. unfold time.int64. rewrite Z.mod_small; lia.
Qed.

Lemma Seconds_exact n :
  0 <= n -> n * time.Second < 2 ^ 63 -> time.Seconds n = n * time.Second.
Proof.
  intros Hn Hbound. unfold time.Seconds, time.Second in *.
  rewrite (int64_small n) by lia. apply int64_small. lia.
Qed.

Lemma Seconds_le n : 0 <= n -> time.Seconds n <= n * time.Second.
Proof.
  intros Hn. destruct (decide (n * time.Second < 2 ^ 63)) as [Hsmall|Hlarge].
  - by rewrite Seconds_exact.
  - pose proof (int64_upper (time.int64 n * time.Second)). unfold time.Seconds. lia.
Qed.

Lemma WithDeadline_Deadline parent d :
  context.Deadline (context.WithDeadline parent d)
  = Some (earliest (context.Deadline parent) d).
Proof.
  unfold context.WithDeadline, time.Before, earliest.
  destruct (context.Deadline parent) as [cur|] eqn:Hparent; [|done].
  destruct (Z.ltb_spec cur d); cbn [context.Deadline].
  - rewrite Hparent. f_equal. lia.
  - f_equal. lia.
Qed.

(** ** The handler on a function object *)

Section Reconcile.

Context {validator : validation.API} {platform : abstract.Defaults}.
Variables (fo : functionOperator) (ctx : context.Context).
Variables (l : nat) (w : World) (f : nuclioio.NuclioFunction).
Hypothesis live : heap w !! l = Some f.

Lemma live_tick : heap (tick w) !! l = Some f.
Proof. exact live. Qed.

(** The handler on a function pointer is the processing of the function
    under the panic-recovery boundary. *)
Lemma CreateOrUpdate_returned a w1 t :
  process fo ctx (Some l) w = {| result := Returned a; world := w1; trace := t |} ->
  CreateOrUpdate fo ctx (FunctionObject (Some l)) w =
  {| result := Returned a; world := w1; trace := t |}.
Proof. intros Hp. unfold CreateOrUpdate. cbn [assertFunction fst snd negb]. by apply catch_returned. Qed.

Lemma CreateOrUpdate_process a :
  result (process fo ctx (Some l) w) = Returned a ->
  CreateOrUpdate fo ctx (FunctionObject (Some l)) w = process fo ctx (Some l) w.
Proof.
  destruct (process fo ctx (Some l) w) as [x w1 t] eqn:Hp. cbn [result].
  intros ->. by apply CreateOrUpdate_returned.
Qed.

(** What the handler emits begins with what the processing emits. *)
Lemma CreateOrUpdate_trace :
  exists handled,
    trace (CreateOrUpdate fo ctx (FunctionObject (Some l)) w)
    = (trace (process fo ctx (Some l) w) ++ handled)%list.
Proof. unfold CreateOrUpdate, defer. cbn [assertFunction fst snd negb trace]. by eexists. Qed.

(** The provisioning path up to the call that creates the resources. *)
Lemma process_provisioning :
  validation.IsQualifiedName (nuclioio.Name f) = [] ->
  functionconfig.FunctionStateInSlice
    (functionconfig.State (nuclioio.Status f)) statesToRespond = true ->
  functionconfig.ShouldSkipDeploy (nuclioio.Annotations f) = false ->
  process fo ctx (Some l) w =
  after [EvLog DebugLevel "Ensuring function resources" [("functionMeta", LogFunction f)]]
    match functionres.CreateOrUpdate (functionresClient fo) ctx f (imagePullSecrets fo) with
    | Returned r =>
        after [EvResourcesCreateOrUpdate ctx f (imagePullSecrets fo)]
          match snd r with
          | Some err =>
              setFunctionError fo (Some l) functionconfig.FunctionStateError
                (errors.Wrap err "Failed to create/update function") w
          | None =>
              defer None (cancel (readinessContext ctx (clock w (ticks w)) f))
                (waitAndFinalize fo ctx (readinessContext ctx (clock w (ticks w)) f)
                   (Some l) f (fst r)) (tick w)
          end
    | Panicked v =>
        {| result := Panicked v; world := w;
           trace := [EvResourcesCreateOrUpdate ctx f (imagePullSecrets fo)] |}
    end.
Proof.
  intros Hvalid Hrespond Hskip. unfold process. run.
  rewrite Hvalid, Hrespond, Hskip. cbn [length Nat.eqb negb]. run.
  destruct (functionres.CreateOrUpdate _ _ _ _) as [[resources [err|]]|v];
    cbn [fst snd]; [reflexivity| |reflexivity].
  by run.
Qed.

(** C6. A function whose name fails qualified-name validation: the
    handler returns the validation error, built from the validator's
    complaints, and touches neither the function object nor the store (it
    emits nothing at all). *)
Theorem invalid_name_is_rejected_without_status_write :
  validation.IsQualifiedName (nuclioio.Name f) <> [] ->
  let r := CreateOrUpdate fo ctx (FunctionObject (Some l)) w in
  result r =
    Returned (Some (errors.New
      ("Function name doesn't conform to k8s naming convention. Errors: "
         +:+ String.concat ", " (validation.IsQualifiedName (nuclioio.Name f)))))
  /\ world r = w
  /\ statusWrites (trace r) = []
  /\ trace r = [].
Proof.
  intros Hinvalid r. subst r.
  rewrite (CreateOrUpdate_returned
             (Some (errors.New
                ("Function name doesn't conform to k8s naming convention. Errors: "
                   +:+ String.concat ", " (validation.IsQualifiedName (nuclioio.Name f)))))
             w []); [done|].
  unfold process. run.
  destruct (validation.IsQualifiedName (nuclioio.Name f)); [done|reflexivity].
Qed.

(** The resource client is asked to create the resources exactly when the
    name is valid, the state is one the operator responds to, and the
    function is not marked skip-deploy. *)
Lemma resources_created_iff :
  provisions (CreateOrUpdate fo ctx (FunctionObject (Some l)) w)
  <-> validation.IsQualifiedName (nuclioio.Name f) = []
      /\ functionconfig.State (nuclioio.Status f) ∈ statesToRespond
      /\ functionconfig.ShouldSkipDeploy (nuclioio.Annotations f) = false.
Proof.
  unfold provisions. rewrite <- FunctionStateInSlice_elem_of. split.
  - intros Hcreated.
    assert (forall a w1 t,
               process fo ctx (Some l) w = {| result := Returned a; world := w1; trace := t |} ->
               resourceCreations t = [] -> False) as Hquiet.
    { intros a w1 t Hrun Hnone. apply Hcreated.
      by rewrite (CreateOrUpdate_returned _ _ _ Hrun). }
    destruct (validation.IsQualifiedName (nuclioio.Name f)) as [|m ms] eqn:Hvalid;
      [destruct (functionconfig.FunctionStateInSlice _ statesToRespond) eqn:Hrespond;
       [destruct (functionconfig.ShouldSkipDeploy _) eqn:Hskip; [|done]|]|];
      exfalso; eapply Hquiet.
    + unfold process. run. rewrite Hvalid, Hrespond, Hskip. cbn [length Nat.eqb negb]. run.
      rewrite (setFunctionStatus_run fo l w f live). run. reflexivity.
    + reflexivity.
    + unfold process. run. rewrite Hvalid, Hrespond. cbn [length Nat.eqb negb]. run.
      reflexivity.
    + reflexivity.
    + unfold process. run. rewrite Hvalid. cbn [length Nat.eqb negb]. reflexivity.
    + reflexivity.
  - intros (Hvalid & Hrespond & Hskip) Hnone.
    destruct CreateOrUpdate_trace as [handled Hhandled].
    rewrite Hhandled, (process_provisioning Hvalid Hrespond Hskip) in Hnone.
    unfold resourceCreations in Hnone. rewrite flat_map_app in Hnone.
    apply app_eq_nil in Hnone as [Hnone _].
    by destruct (functionres.CreateOrUpdate _ _ _ _) as [r|v].
Qed.

(** The provisioning path once the resources are there: the readiness
    wait, under the deferred cancellation of its context. *)
Lemma process_waiting resources :
  validation.IsQualifiedName (nuclioio.Name f) = [] ->
  functionconfig.FunctionStateInSlice
    (functionconfig.State (nuclioio.Status f)) statesToRespond = true ->
  functionconfig.ShouldSkipDeploy (nuclioio.Annotations f) = false ->
  functionres.CreateOrUpdate (functionresClient fo) ctx f (imagePullSecrets fo)
    = Returned (resources, None) ->
  let waitContext := readinessContext ctx (clock w (ticks w)) f in
  let waited := waitAndFinalize fo ctx waitContext (Some l) f resources (tick w) in
  process fo ctx (Some l) w =
  {| result := result waited;
     world := world waited;
     trace :=
       [EvLog DebugLevel "Ensuring function resources" [("functionMeta", LogFunction f)];
        EvResourcesCreateOrUpdate ctx f (imagePullSecrets fo)]
       ++ trace waited ++ [EvCancel waitContext] |}.
Proof.
  intros Hvalid Hrespond Hskip Hcreated waitContext waited.
  rewrite (process_provisioning Hvalid Hrespond Hskip), Hcreated.
  cbn [fst snd]. rewrite defer_cancel. by run.
Qed.

(** What the readiness wait and the finalization do, by the outcome of
    the wait. *)
Lemma waitAndFinalize_run waitContext resources :
  waitAndFinalize fo ctx waitContext (Some l) f resources (tick w) =
  match functionres.WaitAvailable (functionresClient fo) waitContext
          (nuclioio.Namespace f) (nuclioio.Name f) with
  | Returned (Some err) =>
      let wrapped := errors.Wrap err "Failed to wait for function resources to be available" in
      {| result := Returned (Some wrapped);
         world := withHeap (tick w)
                    (<[l := nuclioio.withStatus f
                              (errorStatus functionconfig.FunctionStateUnhealthy wrapped)]>
                       (heap w));
         trace := EvResourcesWaitAvailable waitContext (nuclioio.Namespace f) (nuclioio.Name f)
                  :: errorTrace fo f functionconfig.FunctionStateUnhealthy wrapped |}
  | Returned None =>
      after [EvResourcesWaitAvailable waitContext (nuclioio.Namespace f) (nuclioio.Name f)]
        (if functionconfig.FunctionStateInSlice
              (functionconfig.State (nuclioio.Status f)) waitingStates
         then
           (r ← getFunctionHTTPPort resources;
            match snd r with
            | Some err => mret (Some (errors.Wrap err "Failed to get function http port"))
            | None =>
                s ← setFunctionScaleToZeroStatus ctx
                      {| functionconfig.State :=
                           snd (scaleTransition (functionconfig.State (nuclioio.Status f)));
                         functionconfig.Message := "";
                         functionconfig.Logs := [];
                         functionconfig.ScaleToZero := None;
                         functionconfig.HTTPPort := fst r |}
                      (fst (scaleTransition (functionconfig.State (nuclioio.Status f))));
                match snd s with
                | Some err =>
                    mret (Some (errors.Wrap err "Failed setting function scale to zero status"))
                | None => setFunctionStatus fo (Some l) (fst s)
                end
            end) (tick w)
         else {| result := Returned None; world := tick w; trace := [] |})
  | Panicked v =>
      {| result := Panicked v; world := tick w;
         trace := [EvResourcesWaitAvailable waitContext
                     (nuclioio.Namespace f) (nuclioio.Name f)] |}
  end.
Proof.
  unfold waitAndFinalize. run.
  destruct (functionres.WaitAvailable _ _ _ _) as [[err|]|v]; [| |reflexivity].
  - rewrite (setFunctionError_run fo l (tick w) f live_tick). by run.
  - by destruct (functionconfig.FunctionStateInSlice _ _).
Qed.

(** The finalization of a waiting state once the service handle is there. *)
Lemma process_finalized resources service :
  validation.IsQualifiedName (nuclioio.Name f) = [] ->
  functionconfig.State (nuclioio.Status f) ∈ waitingStates ->
  functionconfig.ShouldSkipDeploy (nuclioio.Annotations f) = false ->
  functionres.CreateOrUpdate (functionresClient fo) ctx f (imagePullSecrets fo)
    = Returned (Some resources, None) ->
  functionres.WaitAvailable (functionresClient fo)
    (readinessContext ctx (clock w (ticks w)) f) (nuclioio.Namespace f) (nuclioio.Name f)
    = Returned None ->
  functionres.Service resources = Returned (service, None) ->
  let transition := scaleTransition (functionconfig.State (nuclioio.Status f)) in
  let newStatus :=
    finalizedStatus (snd transition) (servicePort service) (fst transition)
      (clock w (S (ticks w))) in
  process fo ctx (Some l) w =
  {| result := Returned (NuclioFunctionsUpdate (nuclioClientSet (controller fo))
                           (nuclioio.Namespace f) (nuclioio.withStatus f newStatus));
     world := withHeap (tick (tick w)) (<[l := nuclioio.withStatus f newStatus]> (heap w));
     trace :=
       [EvLog DebugLevel "Ensuring function resources" [("functionMeta", LogFunction f)];
        EvResourcesCreateOrUpdate ctx f (imagePullSecrets fo);
        EvResourcesWaitAvailable (readinessContext ctx (clock w (ticks w)) f)
          (nuclioio.Namespace f) (nuclioio.Name f);
        EvResourcesService;
        EvLog DebugLevel "Setting scale to zero status"
          [("LastScaleEvent", LogScaleEvent (fst transition))];
        EvLog DebugLevel "Setting function state"
          [("name", LogString (nuclioio.Name f)); ("status", LogStatus newStatus)];
        EvUpdate (nuclioio.Namespace f) (nuclioio.withStatus f newStatus);
        EvCancel (readinessContext ctx (clock w (ticks w)) f)] |}.
Proof.
  intros Hvalid Hwaiting Hskip Hcreated Hwaited Hservice transition newStatus.
  pose proof (waitingStates_respond _ Hwaiting) as Hrespond.
  apply FunctionStateInSlice_elem_of in Hrespond, Hwaiting.
  rewrite (process_waiting _ Hvalid Hrespond Hskip Hcreated).
  rewrite waitAndFinalize_run, Hwaited, Hwaiting.
  erewrite bind_returned by (rewrite getFunctionHTTPPort_run, Hservice; reflexivity).
  cbn [fst snd].
  erewrite bind_returned by apply setFunctionScaleToZeroStatus_run.
  cbn [fst snd].
  rewrite (setFunctionStatus_run fo l (tick (tick w)) f live). by run.
Qed.

(** C1 (amended). A reconcile of a function in a waiting state that
    passes name validation, is not skip-deploy, and succeeds through
    resource creation, readiness and the retrieval of the service handle:
    exactly one scale event is stamped, the one the mapping gives for the
    state, and the status of the function is replaced as a whole by
    [{state = finalState, httpPort, scaleToZero = {scaleEvent, now}}],
    with no message and no logs; that document is the one status write
    issued, and the handler returns what that write returns. *)
Theorem waiting_state_is_finalized resources service scaleEvent finalState :
  validation.IsQualifiedName (nuclioio.Name f) = [] ->
  finalizes (functionconfig.State (nuclioio.Status f)) scaleEvent finalState ->
  functionconfig.ShouldSkipDeploy (nuclioio.Annotations f) = false ->
  functionres.CreateOrUpdate (functionresClient fo) ctx f (imagePullSecrets fo)
    = Returned (Some resources, None) ->
  functionres.WaitAvailable (functionresClient fo)
    (readinessContext ctx (clock w (ticks w)) f) (nuclioio.Namespace f) (nuclioio.Name f)
    = Returned None ->
  functionres.Service resources = Returned (service, None) ->
  let r := CreateOrUpdate fo ctx (FunctionObject (Some l)) w in
  let newStatus :=
    finalizedStatus finalState (servicePort service) scaleEvent (clock w (S (ticks w))) in
  stampedScaleEvents (trace r) = [scaleEvent]
  /\ statusAt (world r) l = Some newStatus
  /\ heap (world r) = <[l := nuclioio.withStatus f newStatus]> (heap w)
  /\ functionconfig.Message newStatus = ""
  /\ functionconfig.Logs newStatus = []
  /\ statusWrites (trace r) = [nuclioio.withStatus f newStatus]
  /\ result r = Returned (NuclioFunctionsUpdate (nuclioClientSet (controller fo))
                            (nuclioio.Namespace f) (nuclioio.withStatus f newStatus)).
Proof.
  intros Hvalid Hfinalizes Hskip Hcreated Hwaited Hservice r newStatus.
  destruct (finalizes_waiting _ _ _ Hfinalizes) as [Hwaiting Htransition].
  pose proof (process_finalized _ _ Hvalid Hwaiting Hskip Hcreated Hwaited Hservice) as Hrun.
  rewrite Htransition in Hrun. cbn [fst snd] in Hrun.
  subst r. erewrite CreateOrUpdate_process by (rewrite Hrun; reflexivity).
  rewrite Hrun. cbn [result world trace]. repeat split.
  unfold statusAt. by rewrite (lookup_stored l f _ (tick (tick w)) live).
Qed.

(** C2. In the provisioning path failures are classified by phase.  When
    the resource client's [CreateOrUpdate] returns an error, the status is
    set to state [Error] and the wrapped error is returned; when
    [WaitAvailable] returns an error (as it does when the deadline of its
    context expires), the status is set to state [Unhealthy], not
    [Error], and the wrapped error is returned. *)
Theorem provisioning_failures_are_classified :
  validation.IsQualifiedName (nuclioio.Name f) = [] ->
  functionconfig.State (nuclioio.Status f) ∈ statesToRespond ->
  functionconfig.ShouldSkipDeploy (nuclioio.Annotations f) = false ->
  let r := CreateOrUpdate fo ctx (FunctionObject (Some l)) w in
  (forall resources err,
      functionres.CreateOrUpdate (functionresClient fo) ctx f (imagePullSecrets fo)
        = Returned (resources, Some err) ->
      let wrapped := errors.Wrap err "Failed to create/update function" in
      result r = Returned (Some wrapped)
      /\ statusAt (world r) l = Some (errorStatus functionconfig.FunctionStateError wrapped)
      /\ functionconfig.State <$> statusAt (world r) l
         = Some functionconfig.FunctionStateError
      /\ statusWrites (trace r)
         = [nuclioio.withStatus f (errorStatus functionconfig.FunctionStateError wrapped)])
  /\ (forall resources err,
      functionres.CreateOrUpdate (functionresClient fo) ctx f (imagePullSecrets fo)
        = Returned (resources, None) ->
      functionres.WaitAvailable (functionresClient fo)
        (readinessContext ctx (clock w (ticks w)) f) (nuclioio.Namespace f) (nuclioio.Name f)
        = Returned (Some err) ->
      let wrapped :=
        errors.Wrap err "Failed to wait for function resources to be available" in
      result r = Returned (Some wrapped)
      /\ statusAt (world r) l = Some (errorStatus functionconfig.FunctionStateUnhealthy wrapped)
      /\ functionconfig.State <$> statusAt (world r) l
         = Some functionconfig.FunctionStateUnhealthy
      /\ functionconfig.State <$> statusAt (world r) l
         <> Some functionconfig.FunctionStateError
      /\ statusWrites (trace r)
         = [nuclioio.withStatus f (errorStatus functionconfig.FunctionStateUnhealthy wrapped)]).
Proof.
  intros Hvalid Hrespond Hskip r.
  apply FunctionStateInSlice_elem_of in Hrespond. subst r. split.
  - intros resources err Hcreated wrapped.
    pose proof (process_provisioning Hvalid Hrespond Hskip) as Hrun.
    rewrite Hcreated in Hrun. cbn [fst snd] in Hrun.
    rewrite (setFunctionError_run fo l w f live) in Hrun. normalize_run Hrun.
    erewrite CreateOrUpdate_process by (rewrite Hrun; reflexivity).
    rewrite Hrun. cbn [result world trace]. unfold statusAt.
    rewrite (lookup_stored l f _ w live). repeat split.
    unfold errorTrace. by destruct (NuclioFunctionsUpdate _ _ _).
  - intros resources err Hcreated Hwaited wrapped.
    pose proof (process_waiting _ Hvalid Hrespond Hskip Hcreated) as Hrun.
    cbv zeta in Hrun. rewrite waitAndFinalize_run, Hwaited in Hrun.
    normalize_run Hrun.
    erewrite CreateOrUpdate_process by (rewrite Hrun; reflexivity).
    rewrite Hrun. cbn [result world trace]. unfold statusAt.
    rewrite (lookup_stored l f _ (tick w) live). repeat split; [done|].
    unfold errorTrace. by destruct (NuclioFunctionsUpdate _ _ _).
Qed.

(** C4. A reconcile of a function in state [Ready] or [ScaledToZero]
    for which resource creation and the readiness wait both succeed: the
    status is not mutated, no status write is issued, and the handler
    returns nil. *)
Theorem healthy_function_is_left_alone resources :
  functionconfig.State (nuclioio.Status f) = functionconfig.FunctionStateReady
  \/ functionconfig.State (nuclioio.Status f) = functionconfig.FunctionStateScaledToZero ->
  provisions (CreateOrUpdate fo ctx (FunctionObject (Some l)) w) ->
  functionres.CreateOrUpdate (functionresClient fo) ctx f (imagePullSecrets fo)
    = Returned (resources, None) ->
  functionres.WaitAvailable (functionresClient fo)
    (readinessContext ctx (clock w (ticks w)) f) (nuclioio.Namespace f) (nuclioio.Name f)
    = Returned None ->
  let r := CreateOrUpdate fo ctx (FunctionObject (Some l)) w in
  result r = Returned None
  /\ heap (world r) = heap w
  /\ statusAt (world r) l = Some (nuclioio.Status f)
  /\ statusWrites (trace r) = [].
Proof.
  intros Hstate Hprovisions Hcreated Hwaited r.
  apply resources_created_iff in Hprovisions as (Hvalid & _ & Hskip).
  assert (functionconfig.FunctionStateInSlice
            (functionconfig.State (nuclioio.Status f)) statesToRespond = true
          /\ functionconfig.FunctionStateInSlice
               (functionconfig.State (nuclioio.Status f)) waitingStates = false)
    as [Hrespond Hwaiting] by (destruct Hstate as [-> | ->]; done).
  pose proof (process_waiting _ Hvalid Hrespond Hskip Hcreated) as Hrun.
  cbv zeta in Hrun. rewrite waitAndFinalize_run, Hwaited, Hwaiting in Hrun.
  normalize_run Hrun.
  subst r. erewrite CreateOrUpdate_process by (rewrite Hrun; reflexivity).
  rewrite Hrun. cbn [result world trace]. unfold statusAt. cbn [tick heap].
  by rewrite live.
Qed.

(** C5 (amended). A reconcile of a function whose name passes
    validation, in a responded-to state, whose annotations hold a
    skip-deploy marker with a truthy value: the resource client's
    [CreateOrUpdate] is never called, the status is written as
    [{state = Imported}], and the handler returns what that write returns
    (nil unless the write fails). *)
Theorem skip_deploy_marks_imported value :
  validation.IsQualifiedName (nuclioio.Name f) = [] ->
  functionconfig.State (nuclioio.Status f) ∈ statesToRespond ->
  nuclioio.Annotations f !! "skip-deploy" = Some value ->
  fst (strconv.ParseBool value) = true ->
  let r := CreateOrUpdate fo ctx (FunctionObject (Some l)) w in
  let imported :=
    nuclioio.withStatus f (statusOf functionconfig.FunctionStateImported "") in
  resourceCreations (trace r) = []
  /\ statusAt (world r) l = Some (statusOf functionconfig.FunctionStateImported "")
  /\ heap (world r) = <[l := imported]> (heap w)
  /\ statusWrites (trace r) = [imported]
  /\ result r = Returned (NuclioFunctionsUpdate (nuclioClientSet (controller fo))
                            (nuclioio.Namespace f) imported).
Proof.
  intros Hvalid Hrespond Hmarker Htruthy r imported.
  apply FunctionStateInSlice_elem_of in Hrespond.
  assert (functionconfig.ShouldSkipDeploy (nuclioio.Annotations f) = true) as Hskip.
  { unfold functionconfig.ShouldSkipDeploy, functionconfig.FunctionAnnotationSkipDeploy.
    by rewrite Hmarker. }
  assert (process fo ctx (Some l) w =
          {| result := Returned (NuclioFunctionsUpdate (nuclioClientSet (controller fo))
                                   (nuclioio.Namespace f) imported);
             world := withHeap w (<[l := imported]> (heap w));
             trace :=
               [EvLog InfoLevel "Skipping function deploy"
                  [("name", LogString (nuclioio.Name f));
                   ("state", LogState (functionconfig.State (nuclioio.Status f)));
                   ("namespace", LogString (nuclioio.Namespace f))];
                EvLog DebugLevel "Setting function state"
                  [("name", LogString (nuclioio.Name f));
                   ("status", LogStatus (statusOf functionconfig.FunctionStateImported ""))];
                EvUpdate (nuclioio.Namespace f) imported] |}) as Hrun.
  { unfold process. run. rewrite Hvalid, Hrespond, Hskip. cbn [length Nat.eqb negb]. run.
    rewrite (setFunctionStatus_run fo l w f live). by run. }
  subst r. erewrite CreateOrUpdate_process by (rewrite Hrun; reflexivity).
  rewrite Hrun. cbn [result world trace]. unfold statusAt.
  by rewrite (lookup_stored l f _ w live).
Qed.

(** C10. When, after a successful readiness wait on a waiting state,
    obtaining the child service handle fails, the handler returns the
    wrapped error without writing any status: the status of the function
    is left as it was, so it is set to neither [Error] nor [Unhealthy]. *)
Theorem service_failure_writes_no_status resources service err :
  functionconfig.State (nuclioio.Status f) ∈ waitingStates ->
  provisions (CreateOrUpdate fo ctx (FunctionObject (Some l)) w) ->
  functionres.CreateOrUpdate (functionresClient fo) ctx f (imagePullSecrets fo)
    = Returned (Some resources, None) ->
  functionres.WaitAvailable (functionresClient fo)
    (readinessContext ctx (clock w (ticks w)) f) (nuclioio.Namespace f) (nuclioio.Name f)
    = Returned None ->
  functionres.Service resources = Returned (service, Some err) ->
  let r := CreateOrUpdate fo ctx (FunctionObject (Some l)) w in
  result r = Returned (Some (errors.Wrap (errors.Wrap err "Failed to get function service")
                               "Failed to get function http port"))
  /\ heap (world r) = heap w
  /\ statusAt (world r) l = Some (nuclioio.Status f)
  /\ functionconfig.State <$> statusAt (world r) l <> Some functionconfig.FunctionStateError
  /\ functionconfig.State <$> statusAt (world r) l <> Some functionconfig.FunctionStateUnhealthy
  /\ statusWrites (trace r) = [].
Proof.
  intros Hwaiting Hprovisions Hcreated Hwaited Hservice r.
  apply resources_created_iff in Hprovisions as (Hvalid & Hrespond & Hskip).
  apply FunctionStateInSlice_elem_of in Hrespond, Hwaiting.
  pose proof (process_waiting _ Hvalid Hrespond Hskip Hcreated) as Hrun.
  cbv zeta in Hrun. rewrite waitAndFinalize_run, Hwaited, Hwaiting in Hrun.
  erewrite bind_returned in Hrun by (rewrite getFunctionHTTPPort_run, Hservice; reflexivity).
  normalize_run Hrun.
  subst r. erewrite CreateOrUpdate_process by (rewrite Hrun; reflexivity).
  rewrite Hrun. cbn [result world trace]. unfold statusAt. cbn [tick heap].
  rewrite live. cbn [fmap option_fmap option_map].
  repeat split; intros [= Hstate]; rewrite Hstate in Hwaiting; done.
Qed.

(** C7 (amended). In a reconcile of a function in a waiting state that
    succeeds past resource creation, readiness and the retrieval of the
    service handle, the [httpPort] of the status written is the node port
    of the first service port named [http], and 0 when the service has no
    such port; it is positive exactly when the first port named [http]
    has a positive node port. *)
Theorem http_port_is_first_http_node_port resources service :
  functionconfig.State (nuclioio.Status f) ∈ waitingStates ->
  provisions (CreateOrUpdate fo ctx (FunctionObject (Some l)) w) ->
  functionres.CreateOrUpdate (functionresClient fo) ctx f (imagePullSecrets fo)
    = Returned (Some resources, None) ->
  functionres.WaitAvailable (functionresClient fo)
    (readinessContext ctx (clock w (ticks w)) f) (nuclioio.Namespace f) (nuclioio.Name f)
    = Returned None ->
  functionres.Service resources = Returned (service, None) ->
  let r := CreateOrUpdate fo ctx (FunctionObject (Some l)) w in
  exists status,
    statusAt (world r) l = Some status
    /\ (forall port,
           firstNamed functionres.ContainerHTTPPortName port (portsOf service) ->
           functionconfig.HTTPPort status = v1.NodePort port)
    /\ (Forall (fun p => v1.Name p <> functionres.ContainerHTTPPortName) (portsOf service) ->
        functionconfig.HTTPPort status = 0)
    /\ (functionconfig.HTTPPort status > 0 <->
        exists port,
          firstNamed functionres.ContainerHTTPPortName port (portsOf service)
          /\ v1.NodePort port > 0).
Proof.
  intros Hwaiting Hprovisions Hcreated Hwaited Hservice r.
  apply resources_created_iff in Hprovisions as (Hvalid & _ & Hskip).
  pose proof (process_finalized _ _ Hvalid Hwaiting Hskip Hcreated Hwaited Hservice) as Hrun.
  cbv zeta in Hrun.
  subst r. erewrite CreateOrUpdate_process by (rewrite Hrun; reflexivity).
  rewrite Hrun. cbn [result world trace]. unfold statusAt.
  rewrite (lookup_stored l f _ (tick (tick w)) live).
  eexists. split; [reflexivity|].
  cbn [nuclioio.withStatus nuclioio.Status finalizedStatus functionconfig.HTTPPort].
  rewrite servicePort_scan. repeat split.
  - intros port Hfirst. by apply scanPorts_first.
  - intros Hnone. by apply scanPorts_none.
  - intros Hpositive.
    destruct (firstNamed_or_none functionres.ContainerHTTPPortName (portsOf service))
      as [[port Hfirst]|Hnone].
    + exists port. split; [done|]. by rewrite <- (scanPorts_first _ _ 0 Hfirst).
    + rewrite (scanPorts_none _ 0 Hnone) in Hpositive. lia.
  - intros (port & Hfirst & Hpositive). by rewrite (scanPorts_first _ _ 0 Hfirst).
Qed.

(** The readiness wait is the first thing [waitAndFinalize] does. *)
Lemma waitAndFinalize_trace waitContext resources :
  exists rest,
    trace (waitAndFinalize fo ctx waitContext (Some l) f resources (tick w))
    = EvResourcesWaitAvailable waitContext (nuclioio.Namespace f) (nuclioio.Name f) :: rest.
Proof.
  rewrite waitAndFinalize_run.
  destruct (functionres.WaitAvailable _ _ _ _) as [[err|]|v]; by eexists.
Qed.

(** C8. The readiness wait is bounded by the minimum of the deadline of
    the incoming context and [now] plus the readiness timeout of the
    spec in seconds, where a timeout of 0 is replaced by
    [DefaultReadinessTimeoutSeconds]: the context handed to
    [WaitAvailable] expires no later than that minimum, and at that
    minimum exactly unless the timeout exceeds what a [time.Duration]
    holds.  The derived context is cancelled on exit from the handler,
    however the wait and what follows it end. *)
Theorem readiness_wait_is_bounded resources :
  provisions (CreateOrUpdate fo ctx (FunctionObject (Some l)) w) ->
  functionres.CreateOrUpdate (functionresClient fo) ctx f (imagePullSecrets fo)
    = Returned (resources, None) ->
  0 <= functionconfig.ReadinessTimeoutSeconds (nuclioio.Spec f) ->
  0 <= abstract.DefaultReadinessTimeoutSeconds ->
  let r := CreateOrUpdate fo ctx (FunctionObject (Some l)) w in
  let now := clock w (ticks w) in
  let timeout :=
    if functionconfig.ReadinessTimeoutSeconds (nuclioio.Spec f) =? 0
    then abstract.DefaultReadinessTimeoutSeconds
    else functionconfig.ReadinessTimeoutSeconds (nuclioio.Spec f) in
  let bound := earliest (context.Deadline ctx) (now + timeout * time.Second) in
  exists waitContext deadline rest,
    trace r =
      ([EvLog DebugLevel "Ensuring function resources" [("functionMeta", LogFunction f)];
        EvResourcesCreateOrUpdate ctx f (imagePullSecrets fo);
        EvResourcesWaitAvailable waitContext (nuclioio.Namespace f) (nuclioio.Name f)]
       ++ rest)%list
    /\ context.Deadline waitContext = Some deadline
    /\ deadline <= bound
    /\ (timeout * time.Second < 2 ^ 63 -> deadline = bound)
    /\ EvCancel waitContext ∈ rest.
Proof.
  intros Hprovisions Hcreated Htimeout Hdefault r now timeout bound.
  apply resources_created_iff in Hprovisions as (Hvalid & Hrespond & Hskip).
  apply FunctionStateInSlice_elem_of in Hrespond.
  pose proof (process_waiting _ Hvalid Hrespond Hskip Hcreated) as Hrun.
  cbv zeta in Hrun.
  destruct CreateOrUpdate_trace as [handled Hhandled].
  destruct (waitAndFinalize_trace (readinessContext ctx now f) resources) as [rest Hrest].
  assert (0 <= timeout) as Hnonneg by (subst timeout; by destruct (_ =? 0)).
  exists (readinessContext ctx now f),
    (earliest (context.Deadline ctx) (time.Add now (time.Seconds timeout))),
    (rest ++ [EvCancel (readinessContext ctx now f)] ++ handled)%list.
  repeat split.
  - subst r. rewrite Hhandled, Hrun. cbn [trace]. fold now. rewrite Hrest.
    cbn [app]. by rewrite <- !app_assoc.
  - apply WithDeadline_Deadline.
  - pose proof (Seconds_le timeout Hnonneg). subst bound. unfold earliest, time.Add.
    destruct (context.Deadline ctx); lia.
  - intros Hfits. subst bound. by rewrite Seconds_exact.
  - apply elem_of_app. right. apply list_elem_of_here.
Qed.

(** A panic of the processing leaves the function objects as they were:
    every panic comes out of a call to the resource client or to the
    resources, before any status is written. *)
Lemma process_panicked p :
  result (process fo ctx (Some l) w) = Panicked p ->
  heap (world (process fo ctx (Some l) w)) = heap w.
Proof.
  unfold process. run.
  destruct (negb (length (validation.IsQualifiedName (nuclioio.Name f)) =? 0)%nat);
    [discriminate|].
  destruct (negb (functionconfig.FunctionStateInSlice _ _)); [run; discriminate|].
  destruct (functionconfig.ShouldSkipDeploy _).
  { run. rewrite (setFunctionStatus_run fo l w f live). run. discriminate. }
  run.
  destruct (functionres.CreateOrUpdate _ _ _ _) as [[resources [err|]]|v];
    cbn [fst snd]; run; [| |done].
  { rewrite (setFunctionError_run fo l w f live). run. discriminate. }
  rewrite defer_cancel, waitAndFinalize_run. run.
  destruct (functionres.WaitAvailable _ _ _ _) as [[err|]|v]; run; [discriminate| |done].
  destruct (functionconfig.FunctionStateInSlice _ _); run; [|discriminate].
  destruct resources as [resources|].
  - destruct (functionres.Service resources) as [[service [err|]]|v] eqn:Hservice.
    + erewrite bind_returned by (rewrite getFunctionHTTPPort_run, Hservice; reflexivity).
      run. discriminate.
    + erewrite bind_returned by (rewrite getFunctionHTTPPort_run, Hservice; reflexivity).
      cbn [fst snd].
      erewrite bind_returned by apply setFunctionScaleToZeroStatus_run.
      cbn [fst snd].
      rewrite (setFunctionStatus_run fo l (tick (tick w)) f live). run. discriminate.
    + erewrite bind_panicked by (rewrite getFunctionHTTPPort_run, Hservice; reflexivity).
      by run.
  - erewrite bind_panicked by apply getFunctionHTTPPort_nil. by run.
Qed.

(** The stack string of an error, cut at [depth], is a stack of that depth. *)
Lemma GetErrorStackString_depth e depth :
  stackOfDepth depth e (errors.GetErrorStackString e depth).
Proof.
  exists (errors.GetErrorStack e depth). unfold errors.GetErrorStack. repeat split.
  - rewrite length_take. lia.
  - exists (drop depth (errors.chain e)). by rewrite take_drop.
Qed.

(** C3. An invocation of the handler on a valid function object in which
    the processing panics below the panic-recovery boundary: the panic is
    captured and the handler returns (nil) instead of panicking, and the
    status the function is left with, which is also the last status
    written to the store, has state [Error] and as its message the stack
    of the wrapped panic cut at depth 10: a message that is not empty and
    lists at most 10 frames; its other fields are empty. *)
Theorem panic_is_contained p :
  result (process fo ctx (Some l) w) = Panicked p ->
  let r := CreateOrUpdate fo ctx (FunctionObject (Some l)) w in
  let err := errors.Wrap p "Failed to create/update function" in
  result r = Returned None
  /\ exists status,
       statusAt (world r) l = Some status
       /\ functionconfig.State status = functionconfig.FunctionStateError
       /\ functionconfig.Message status = errors.GetErrorStackString err 10
       /\ functionconfig.Message status <> ""
       /\ stackOfDepth 10 err (functionconfig.Message status)
       /\ functionconfig.Logs status = []
       /\ functionconfig.ScaleToZero status = None
       /\ functionconfig.HTTPPort status = 0
       /\ last (statusWrites (trace r)) = Some (nuclioio.withStatus f status).
Proof.
  intros Hpanicked r err.
  pose proof (process_panicked p Hpanicked) as Hheap.
  destruct (process fo ctx (Some l) w) as [x w1 t] eqn:Hrun.
  cbn [result world] in Hpanicked, Hheap. subst x.
  assert (heap w1 !! l = Some f) as live1 by (by rewrite Hheap).
  assert (CreateOrUpdate fo ctx (FunctionObject (Some l)) w =
          {| result := Returned None;
             world := withHeap w1
                        (<[l := nuclioio.withStatus f
                                  (errorStatus functionconfig.FunctionStateError err)]>
                           (heap w1));
             trace := t ++ EvLog ErrorLevel
                             ("Panic caught while " +:+ "nucliofunction.CreateOrUpdate")
                             [("err", LogError p); ("function", LogFunctionPtr (Some l))]
                        :: errorTrace fo f functionconfig.FunctionStateError err |})
    as Hhandled.
  { unfold CreateOrUpdate. cbn [assertFunction fst snd negb].
    eapply catch_panicked; [exact Hrun|].
    erewrite bind_returned by (by apply setFunctionError_run).
    unfold after, mret, Go_ret. cbn [result world trace]. by rewrite app_nil_r. }
  subst r. rewrite Hhandled. cbn [result world trace]. split; [reflexivity|].
  exists (errorStatus functionconfig.FunctionStateError err).
  split; [|split; [|split; [|split; [|split; [|split; [|split; [|split]]]]]]].
  - unfold statusAt. by rewrite (lookup_stored l f _ w1 live1).
  - reflexivity.
  - reflexivity.
  - cbn [errorStatus statusOf functionconfig.Message]. done.
  - apply GetErrorStackString_depth.
  - reflexivity.
  - reflexivity.
  - reflexivity.
  - unfold statusWrites. rewrite flat_map_app. cbn [flat_map app].
    unfold errorTrace. rewrite flat_map_app.
    destruct (NuclioFunctionsUpdate _ _ _); cbn [flat_map app]; by rewrite last_snoc.
Qed.

End Reconcile.

(** ** The handler on an object that is not a function *)

(** C9. Handed a nil function target, [setFunctionError] does not
    short-circuit: it reads the name of the function for its warning and
    panics on the nil pointer, before it logs or writes anything.  So does
    the handler on an object that is not a function, which calls it so
    before the panic-recovery boundary is installed. *)
Theorem unexpected_object_panics
    {validator : validation.API} {platform : abstract.Defaults}
    (fo : functionOperator) (ctx : context.Context) (kind : string) (w : World)
    (state : functionconfig.FunctionState) (err : errors.Error) :
  setFunctionError fo None state err w
    = {| result := Panicked nilDereference; world := w; trace := [] |}
  /\ CreateOrUpdate fo ctx (OtherObject kind) w
     = {| result := Panicked nilDereference; world := w; trace := [] |}.
Proof.
  split.
  - unfold setFunctionError. by run.
  - unfold CreateOrUpdate. cbn [assertFunction fst snd negb].
    unfold setFunctionError. by run.
Qed.

(** ** Scenarios *)

Section Scenarios.

Import fixtures.

#[local] Existing Instance nameValidator.
#[local] Existing Instance defaults.

(** C1, as worded, does not hold: resource creation and readiness
    succeed, yet the service handle cannot be obtained; no scale event is
    stamped and the status keeps its state, message and logs. *)
Lemma waiting_state_not_finalized_on_service_failure :
  let f := configuring in
  let broken := resourcesOf (Returned (None, Some (errors.New "service not found"))) in
  let fo := operator (client (Returned (Some broken, None)) (Returned None)) None in
  let r := CreateOrUpdate fo context.Background (FunctionObject (Some 0%nat)) (worldOf f) in
  validation.IsQualifiedName (nuclioio.Name f) = []
  /\ functionconfig.State (nuclioio.Status f) ∈ waitingStates
  /\ functionconfig.ShouldSkipDeploy (nuclioio.Annotations f) = false
  /\ functionres.CreateOrUpdate (functionresClient fo) context.Background f
       (imagePullSecrets fo) = Returned (Some broken, None)
  /\ (forall c, functionres.WaitAvailable (functionresClient fo) c
                  (nuclioio.Namespace f) (nuclioio.Name f) = Returned None)
  /\ stampedScaleEvents (trace r) = []
  /\ statusAt (world r) 0 = Some (staleStatus functionconfig.FunctionStateWaitingForResourceConfiguration)
  /\ ~ (exists httpPort now,
           statusAt (world r) 0
           = Some (finalizedStatus functionconfig.FunctionStateReady httpPort
                     scaler_types.ResourceUpdatedScaleEvent now)).
Proof.
  cbv zeta. repeat split.
  - apply FunctionStateInSlice_elem_of. reflexivity.
  - intros (httpPort & now & Hstatus). vm_compute in Hstatus. discriminate.
Qed.

(** C5, as worded, does not hold: a function in a responded-to state
    whose annotations carry a truthy skip-deploy marker, but whose name
    fails validation; the handler returns the validation error and the
    status is not written as [{state = Imported}]. *)
Lemma skip_deploy_not_imported_on_invalid_name :
  let f := function "Fn_1!" {[ "skip-deploy" := "true" ]} 0
             functionconfig.FunctionStateWaitingForResourceConfiguration in
  let fo := operator (healthyClient 30080) None in
  let r := CreateOrUpdate fo context.Background (FunctionObject (Some 0%nat)) (worldOf f) in
  functionconfig.State (nuclioio.Status f) ∈ statesToRespond
  /\ nuclioio.Annotations f !! "skip-deploy" = Some "true"
  /\ fst (strconv.ParseBool "true") = true
  /\ result r <> Returned None
  /\ statusWrites (trace r) = []
  /\ statusAt (world r) 0 <> Some (statusOf functionconfig.FunctionStateImported "").
Proof.
  cbv zeta. repeat split.
  - apply FunctionStateInSlice_elem_of. reflexivity.
  - vm_compute. discriminate.
  - vm_compute. discriminate.
Qed.

(** C7, as worded, does not hold: the reconcile succeeds and the child
    service exposes a port named [http], whose node port is 0 (as on a
    service that is not of the node-port type); [httpPort] is 0. *)
Lemma http_port_zero_though_exposed :
  let f := configuring in
  let fo := operator (healthyClient 0) None in
  let r := CreateOrUpdate fo context.Background (FunctionObject (Some 0%nat)) (worldOf f) in
  result r = Returned None
  /\ exists status,
       statusAt (world r) 0 = Some status
       /\ ~ (functionconfig.HTTPPort status > 0 <->
             exists port,
               port ∈ v1.Ports (v1.Spec (httpService 0))
               /\ v1.Name port = functionres.ContainerHTTPPortName).
Proof.
  cbv zeta. split; [reflexivity|].
  eexists. split; [reflexivity|].
  intros [_ Hexposed].
  assert (0 > 0) as Habsurd; [|lia].
  apply Hexposed. exists {| v1.Name := "http"; v1.NodePort := 0 |}.
  split; [|reflexivity]. apply list_elem_of_further, list_elem_of_here.
Qed.

(** S1. The happy path from [WaitingForResourceConfiguration]: the
    service exposes [http] on node port 30080. *)
Lemma configured_function_becomes_ready :
  let fo := operator (healthyClient 30080) None in
  let r := CreateOrUpdate fo context.Background (FunctionObject (Some 0%nat))
             (worldOf configuring) in
  let newStatus :=
    finalizedStatus functionconfig.FunctionStateReady 30080
      scaler_types.ResourceUpdatedScaleEvent 1007 in
  stampedScaleEvents (trace r) = [scaler_types.ResourceUpdatedScaleEvent]
  /\ statusAt (world r) 0 = Some newStatus
  /\ heap (world r) = [nuclioio.withStatus configuring newStatus]
  /\ functionconfig.Message newStatus = ""
  /\ functionconfig.Logs newStatus = []
  /\ statusWrites (trace r) = [nuclioio.withStatus configuring newStatus]
  /\ result r = Returned None.
Proof.
  apply (waiting_state_is_finalized (validator := nameValidator) (platform := defaults)
           (operator (healthyClient 30080) None) context.Background 0
           (worldOf configuring) configuring eq_refl
           (resourcesOf (Returned (Some (httpService 30080), None)))
           (Some (httpService 30080))
           scaler_types.ResourceUpdatedScaleEvent functionconfig.FunctionStateReady);
    [vm_compute; reflexivity | constructor | vm_compute; reflexivity
    | reflexivity | reflexivity | reflexivity].
Defined.

(** The resource client fails to create the resources of the function;
    and S3: the readiness wait of a function scaling from zero fails. *)
Lemma provisioning_failure_scenarios :
  (let fo := operator (client (Returned (None, Some (errors.New "quota exceeded")))
                         (Returned None)) None in
   let r := CreateOrUpdate fo context.Background (FunctionObject (Some 0%nat))
              (worldOf configuring) in
   result r = Returned (Some (errors.Wrap (errors.New "quota exceeded")
                                "Failed to create/update function"))
   /\ functionconfig.State <$> statusAt (world r) 0 = Some functionconfig.FunctionStateError)
  /\ (let f := function "fn1" ∅ 1
                 functionconfig.FunctionStateWaitingForScaleResourcesFromZero in
      let fo := operator (client (Returned (None, None))
                            (Returned (Some (errors.New "context deadline exceeded")))) None in
      let r := CreateOrUpdate fo context.Background (FunctionObject (Some 0%nat)) (worldOf f) in
      result r = Returned (Some (errors.Wrap (errors.New "context deadline exceeded")
                                   "Failed to wait for function resources to be available"))
      /\ functionconfig.State <$> statusAt (world r) 0
         = Some functionconfig.FunctionStateUnhealthy).
Proof.
  split.
  - pose proof (provisioning_failures_are_classified
                  (validator := nameValidator) (platform := defaults)
                  (operator (client (Returned (None, Some (errors.New "quota exceeded")))
                               (Returned None)) None)
                  context.Background 0 (worldOf configuring) configuring eq_refl
                  ltac:(vm_compute; reflexivity)
                  ltac:(apply FunctionStateInSlice_elem_of; vm_compute; reflexivity)
                  ltac:(vm_compute; reflexivity)) as [Hcreation _].
    destruct (Hcreation None (errors.New "quota exceeded") eq_refl)
      as (Hresult & _ & Hstate & _).
    exact (conj Hresult Hstate).
  - pose proof (provisioning_failures_are_classified
                  (validator := nameValidator) (platform := defaults)
                  (operator (client (Returned (None, None))
                               (Returned (Some (errors.New "context deadline exceeded"))))
                     None)
                  context.Background 0
                  (worldOf (function "fn1" ∅ 1
                              functionconfig.FunctionStateWaitingForScaleResourcesFromZero))
                  (function "fn1" ∅ 1
                     functionconfig.FunctionStateWaitingForScaleResourcesFromZero)
                  eq_refl
                  ltac:(vm_compute; reflexivity)
                  ltac:(apply FunctionStateInSlice_elem_of; vm_compute; reflexivity)
                  ltac:(vm_compute; reflexivity)) as [_ Hreadiness].
    destruct (Hreadiness None (errors.New "context deadline exceeded") eq_refl eq_refl)
      as (Hresult & _ & Hstate & _).
    exact (conj Hresult Hstate).
Defined.

(** S6. The resource client panics with "boom". *)
Lemma boom_is_contained :
  let fo := operator (client (Panicked (errors.New "boom")) (Returned None)) None in
  let r := CreateOrUpdate fo context.Background (FunctionObject (Some 0%nat))
             (worldOf configuring) in
  let err := errors.Wrap (errors.New "boom") "Failed to create/update function" in
  result r = Returned None
  /\ exists status,
       statusAt (world r) 0 = Some status
       /\ functionconfig.State status = functionconfig.FunctionStateError
       /\ functionconfig.Message status
          = errors.newline +:+ "Error - Failed to create/update function"
            +:+ errors.newline +:+ "Call stack:"
            +:+ errors.newline +:+ "Failed to create/update function"
            +:+ errors.newline +:+ "boom"
       /\ functionconfig.Message status <> ""
       /\ stackOfDepth 10 err (functionconfig.Message status)
       /\ functionconfig.Logs status = []
       /\ functionconfig.ScaleToZero status = None
       /\ functionconfig.HTTPPort status = 0
       /\ last (statusWrites (trace r)) = Some (nuclioio.withStatus configuring status).
Proof.
  apply (panic_is_contained (validator := nameValidator) (platform := defaults)
           (operator (client (Panicked (errors.New "boom")) (Returned None)) None)
           context.Background 0 (worldOf configuring) configuring eq_refl
           (errors.New "boom")).
  vm_compute. reflexivity.
Defined.

(** A resync of a function that is ready and healthy. *)
Lemma ready_function_is_not_written :
  let f := function "fn1" ∅ 0 functionconfig.FunctionStateReady in
  let fo := operator (healthyClient 30080) None in
  let r := CreateOrUpdate fo context.Background (FunctionObject (Some 0%nat)) (worldOf f) in
  result r = Returned None
  /\ heap (world r) = [f]
  /\ statusAt (world r) 0 = Some (staleStatus functionconfig.FunctionStateReady)
  /\ statusWrites (trace r) = [].
Proof.
  apply (healthy_function_is_left_alone (validator := nameValidator) (platform := defaults)
           (operator (healthyClient 30080) None) context.Background 0
           (worldOf (function "fn1" ∅ 0 functionconfig.FunctionStateReady))
           (function "fn1" ∅ 0 functionconfig.FunctionStateReady) eq_refl
           (Some (resourcesOf (Returned (Some (httpService 30080), None)))));
    [left; reflexivity | vm_compute; discriminate | reflexivity | reflexivity].
Defined.

(** S5. The skip-deploy annotation on a function of valid name. *)
Lemma skipped_function_is_imported :
  let f := function "fn1" {[ "skip-deploy" := "true" ]} 0
             functionconfig.FunctionStateWaitingForResourceConfiguration in
  let fo := operator (healthyClient 30080) None in
  let r := CreateOrUpdate fo context.Background (FunctionObject (Some 0%nat)) (worldOf f) in
  let imported :=
    nuclioio.withStatus f (statusOf functionconfig.FunctionStateImported "") in
  resourceCreations (trace r) = []
  /\ statusAt (world r) 0 = Some (statusOf functionconfig.FunctionStateImported "")
  /\ heap (world r) = [imported]
  /\ statusWrites (trace r) = [imported]
  /\ result r = Returned None.
Proof.
  apply (skip_deploy_marks_imported (validator := nameValidator) (platform := defaults)
           (operator (healthyClient 30080) None) context.Background 0
           (worldOf (function "fn1" {[ "skip-deploy" := "true" ]} 0
                       functionconfig.FunctionStateWaitingForResourceConfiguration))
           (function "fn1" {[ "skip-deploy" := "true" ]} 0
              functionconfig.FunctionStateWaitingForResourceConfiguration)
           eq_refl "true");
    [vm_compute; reflexivity
    | apply FunctionStateInSlice_elem_of; vm_compute; reflexivity
    | vm_compute; reflexivity | vm_compute; reflexivity].
Defined.

(** S4. The name "Fn_1!" fails validation. *)
Lemma invalid_name_scenario :
  let f := function "Fn_1!" ∅ 0 functionconfig.FunctionStateWaitingForResourceConfiguration in
  let fo := operator (healthyClient 30080) None in
  let r := CreateOrUpdate fo context.Background (FunctionObject (Some 0%nat)) (worldOf f) in
  result r =
    Returned (Some (errors.New
      ("Function name doesn't conform to k8s naming convention. Errors: "
         +:+ String.concat ", " (validation.IsQualifiedName "Fn_1!"))))
  /\ world r = worldOf f
  /\ statusWrites (trace r) = []
  /\ trace r = [].
Proof.
  apply (invalid_name_is_rejected_without_status_write (validator := nameValidator) (platform := defaults)
           (operator (healthyClient 30080) None) context.Background 0
           (worldOf (function "Fn_1!" ∅ 0
                       functionconfig.FunctionStateWaitingForResourceConfiguration))
           (function "Fn_1!" ∅ 0
              functionconfig.FunctionStateWaitingForResourceConfiguration) eq_refl).
  vm_compute. discriminate.
Defined.

(** S2. Scale to zero completes on a service without an [http] port. *)
Lemma scaled_to_zero_without_http_port :
  let f := function "fn1" ∅ 0 functionconfig.FunctionStateWaitingForScaleResourcesToZero in
  let service :=
    {| v1.Spec := {| v1.Ports := [ {| v1.Name := "metrics"; v1.NodePort := 30900 |} ] |} |} in
  let fo := operator (client (Returned (Some (resourcesOf (Returned (Some service, None))),
                                        None)) (Returned None)) None in
  let r := CreateOrUpdate fo context.Background (FunctionObject (Some 0%nat)) (worldOf f) in
  exists status,
    statusAt (world r) 0 = Some status
    /\ (forall port,
           firstNamed functionres.ContainerHTTPPortName port (portsOf (Some service)) ->
           functionconfig.HTTPPort status = v1.NodePort port)
    /\ (Forall (fun p => v1.Name p <> functionres.ContainerHTTPPortName)
          (portsOf (Some service)) ->
        functionconfig.HTTPPort status = 0)
    /\ (functionconfig.HTTPPort status > 0 <->
        exists port,
          firstNamed functionres.ContainerHTTPPortName port (portsOf (Some service))
          /\ v1.NodePort port > 0).
Proof.
  apply (http_port_is_first_http_node_port (validator := nameValidator) (platform := defaults)
           (operator
              (client
                 (Returned
                    (Some (resourcesOf
                             (Returned
                                (Some {| v1.Spec := {| v1.Ports :=
                                           [ {| v1.Name := "metrics";
                                                v1.NodePort := 30900 |} ] |} |},
                                 None))),
                     None)) (Returned None)) None)
           context.Background 0
           (worldOf (function "fn1" ∅ 0
                       functionconfig.FunctionStateWaitingForScaleResourcesToZero))
           (function "fn1" ∅ 0 functionconfig.FunctionStateWaitingForScaleResourcesToZero)
           eq_refl
           (resourcesOf
              (Returned
                 (Some {| v1.Spec := {| v1.Ports :=
                            [ {| v1.Name := "metrics"; v1.NodePort := 30900 |} ] |} |},
                  None))));
    [apply FunctionStateInSlice_elem_of; vm_compute; reflexivity
    | vm_compute; discriminate | reflexivity | reflexivity | reflexivity].
Defined.

(** The readiness wait of a function with a timeout of 1 second under a
    context that expires at instant 5000: the earlier deadline wins. *)
Lemma readiness_wait_scenario :
  let f := function "fn1" ∅ 1 functionconfig.FunctionStateWaitingForScaleResourcesFromZero in
  let ctx := context.WithDeadline context.Background 5000 in
  let fo := operator (healthyClient 30080) None in
  let r := CreateOrUpdate fo ctx (FunctionObject (Some 0%nat)) (worldOf f) in
  exists waitContext deadline rest,
    trace r =
      ([EvLog DebugLevel "Ensuring function resources" [("functionMeta", LogFunction f)];
        EvResourcesCreateOrUpdate ctx f "registry-credentials";
        EvResourcesWaitAvailable waitContext "nuclio" "fn1"]
       ++ rest)%list
    /\ context.Deadline waitContext = Some deadline
    /\ deadline <= 5000
    /\ (1 * time.Second < 2 ^ 63 -> deadline = 5000)
    /\ EvCancel waitContext ∈ rest.
Proof.
  apply (readiness_wait_is_bounded (validator := nameValidator) (platform := defaults)
           (operator (healthyClient 30080) None)
           (context.WithDeadline context.Background 5000) 0
           (worldOf (function "fn1" ∅ 1
                       functionconfig.FunctionStateWaitingForScaleResourcesFromZero))
           (function "fn1" ∅ 1 functionconfig.FunctionStateWaitingForScaleResourcesFromZero)
           eq_refl
           (Some (resourcesOf (Returned (Some (httpService 30080), None)))));
    [vm_compute; discriminate | reflexivity | vm_compute; discriminate
    | vm_compute; discriminate].
Defined.

(** The service handle of a function scaling from zero cannot be obtained. *)
Lemma service_failure_scenario :
  let f := function "fn1" ∅ 0 functionconfig.FunctionStateWaitingForScaleResourcesFromZero in
  let broken := resourcesOf (Returned (None, Some (errors.New "service not found"))) in
  let fo := operator (client (Returned (Some broken, None)) (Returned None)) None in
  let r := CreateOrUpdate fo context.Background (FunctionObject (Some 0%nat)) (worldOf f) in
  result r = Returned (Some (errors.Wrap
                               (errors.Wrap (errors.New "service not found")
                                  "Failed to get function service")
                               "Failed to get function http port"))
  /\ heap (world r) = [f]
  /\ statusAt (world r) 0 = Some (nuclioio.Status f)
  /\ functionconfig.State <$> statusAt (world r) 0 <> Some functionconfig.FunctionStateError
  /\ functionconfig.State <$> statusAt (world r) 0 <> Some functionconfig.FunctionStateUnhealthy
  /\ statusWrites (trace r) = [].
Proof.
  apply (service_failure_writes_no_status (validator := nameValidator) (platform := defaults)
           (operator
              (client
                 (Returned
                    (Some (resourcesOf
                             (Returned (None, Some (errors.New "service not found")))),
                     None)) (Returned None)) None)
           context.Background 0
           (worldOf (function "fn1" ∅ 0
                       functionconfig.FunctionStateWaitingForScaleResourcesFromZero))
           (function "fn1" ∅ 0 functionconfig.FunctionStateWaitingForScaleResourcesFromZero)
           eq_refl
           (resourcesOf (Returned (None, Some (errors.New "service not found"))))
           None (errors.New "service not found"));
    [apply FunctionStateInSlice_elem_of; vm_compute; reflexivity
    | vm_compute; discriminate | reflexivity | reflexivity | reflexivity].
Defined.

End Scenarios.

(** * Further properties of the operator *)

(** ** Every path of the handler *)

Section Paths.

Context {validator : validation.API} {platform : abstract.Defaults}.
Variables (fo : functionOperator) (ctx : context.Context).
Variables (l : nat) (w : World) (f : nuclioio.NuclioFunction).
Hypothesis live : heap w !! l = Some f.

(** The handler on a live function pointer takes one of twelve paths; a
    property of its run holds as soon as it holds of the run of each. *)
Lemma CreateOrUpdate_cases (P : Run error -> Prop) :
  let waitContext := readinessContext ctx (clock w (ticks w)) f in
  let ensuring :=
    EvLog DebugLevel "Ensuring function resources" [("functionMeta", LogFunction f)] in
  let created := EvResourcesCreateOrUpdate ctx f (imagePullSecrets fo) in
  let waited :=
    EvResourcesWaitAvailable waitContext (nuclioio.Namespace f) (nuclioio.Name f) in
  let creation :=
    functionres.CreateOrUpdate (functionresClient fo) ctx f (imagePullSecrets fo) in
  let wait :=
    functionres.WaitAvailable (functionresClient fo) waitContext
      (nuclioio.Namespace f) (nuclioio.Name f) in
  let state := functionconfig.State (nuclioio.Status f) in
  let imported := nuclioio.withStatus f (statusOf functionconfig.FunctionStateImported "") in
  (* the name is invalid *)
  (validation.IsQualifiedName (nuclioio.Name f) <> [] ->
   P {| result := Returned (Some (errors.New
          ("Function name doesn't conform to k8s naming convention. Errors: "
             +:+ String.concat ", " (validation.IsQualifiedName (nuclioio.Name f)))));
        world := w; trace := [] |}) ->
  (* the state is not one the operator responds to *)
  (validation.IsQualifiedName (nuclioio.Name f) = [] ->
   functionconfig.FunctionStateInSlice state statesToRespond = false ->
   P {| result := Returned None; world := w;
        trace := [EvLog DebugLevel
          "NuclioFunction is not waiting for resource creation or ready, skipping create/update"
          [("name", LogString (nuclioio.Name f)); ("state", LogState state);
           ("namespace", LogString (nuclioio.Namespace f))]] |}) ->
  (* the function is marked skip-deploy *)
  (validation.IsQualifiedName (nuclioio.Name f) = [] ->
   functionconfig.FunctionStateInSlice state statesToRespond = true ->
   functionconfig.ShouldSkipDeploy (nuclioio.Annotations f) = true ->
   P {| result := Returned (NuclioFunctionsUpdate (nuclioClientSet (controller fo))
                              (nuclioio.Namespace f) imported);
        world := withHeap w (<[l := imported]> (heap w));
        trace := [EvLog InfoLevel "Skipping function deploy"
                    [("name", LogString (nuclioio.Name f)); ("state", LogState state);
                     ("namespace", LogString (nuclioio.Namespace f))];
                  EvLog DebugLevel "Setting function state"
                    [("name", LogString (nuclioio.Name f));
                     ("status", LogStatus (statusOf functionconfig.FunctionStateImported ""))];
                  EvUpdate (nuclioio.Namespace f) imported] |}) ->
  (* the provisioning path *)
  (validation.IsQualifiedName (nuclioio.Name f) = [] ->
   functionconfig.FunctionStateInSlice state statesToRespond = true ->
   functionconfig.ShouldSkipDeploy (nuclioio.Annotations f) = false ->
   (forall v, creation = Panicked v -> P (recovered fo l f w [ensuring; created] v))
   /\ (forall resources err,
          creation = Returned (resources, Some err) ->
          let wrapped := errors.Wrap err "Failed to create/update function" in
          P {| result := Returned (Some wrapped);
               world := withHeap w
                          (<[l := nuclioio.withStatus f
                                    (errorStatus functionconfig.FunctionStateError wrapped)]>
                             (heap w));
               trace := [ensuring; created]
                        ++ errorTrace fo f functionconfig.FunctionStateError wrapped |})
   /\ (forall resources v,
          creation = Returned (resources, None) -> wait = Panicked v ->
          P (recovered fo l f (tick w) [ensuring; created; waited; EvCancel waitContext] v))
   /\ (forall resources err,
          creation = Returned (resources, None) -> wait = Returned (Some err) ->
          let wrapped :=
            errors.Wrap err "Failed to wait for function resources to be available" in
          P {| result := Returned (Some wrapped);
               world := withHeap (tick w)
                          (<[l := nuclioio.withStatus f
                                    (errorStatus functionconfig.FunctionStateUnhealthy wrapped)]>
                             (heap w));
               trace := [ensuring; created; waited]
                        ++ errorTrace fo f functionconfig.FunctionStateUnhealthy wrapped
                        ++ [EvCancel waitContext] |})
   /\ (forall resources,
          creation = Returned (resources, None) -> wait = Returned None ->
          functionconfig.FunctionStateInSlice state waitingStates = false ->
          P {| result := Returned None; world := tick w;
               trace := [ensuring; created; waited; EvCancel waitContext] |})
   /\ (creation = Returned (None, None) -> wait = Returned None ->
       functionconfig.FunctionStateInSlice state waitingStates = true ->
       P (recovered fo l f (tick w) [ensuring; created; waited; EvCancel waitContext]
            nilDereference))
   /\ (forall resources v,
          creation = Returned (Some resources, None) -> wait = Returned None ->
          functionconfig.FunctionStateInSlice state waitingStates = true ->
          functionres.Service resources = Panicked v ->
          P (recovered fo l f (tick w)
               [ensuring; created; waited; EvResourcesService; EvCancel waitContext] v))
   /\ (forall resources service err,
          creation = Returned (Some resources, None) -> wait = Returned None ->
          functionconfig.FunctionStateInSlice state waitingStates = true ->
          functionres.Service resources = Returned (service, Some err) ->
          P {| result := Returned (Some (errors.Wrap
                                           (errors.Wrap err "Failed to get function service")
                                           "Failed to get function http port"));
               world := tick w;
               trace := [ensuring; created; waited; EvResourcesService;
                         EvCancel waitContext] |})
   /\ (forall resources service,
          creation = Returned (Some resources, None) -> wait = Returned None ->
          functionconfig.FunctionStateInSlice state waitingStates = true ->
          functionres.Service resources = Returned (service, None) ->
          let newStatus :=
            finalizedStatus (snd (scaleTransition state)) (servicePort service)
              (fst (scaleTransition state)) (clock w (S (ticks w))) in
          P {| result := Returned (NuclioFunctionsUpdate (nuclioClientSet (controller fo))
                                     (nuclioio.Namespace f) (nuclioio.withStatus f newStatus));
               world := withHeap (tick (tick w))
                          (<[l := nuclioio.withStatus f newStatus]> (heap w));
               trace := [ensuring; created; waited; EvResourcesService;
                         EvLog DebugLevel "Setting scale to zero status"
                           [("LastScaleEvent", LogScaleEvent (fst (scaleTransition state)))];
                         EvLog DebugLevel "Setting function state"
                           [("name", LogString (nuclioio.Name f));
                            ("status", LogStatus newStatus)];
                         EvUpdate (nuclioio.Namespace f) (nuclioio.withStatus f newStatus);
                         EvCancel waitContext] |})) ->
  P (CreateOrUpdate fo ctx (FunctionObject (Some l)) w).
Proof.
  intros waitContext ensuring created waited creation wait state imported
    Hinvalid Hunresponsive Hskipped Hprovisioning.
  (* a caught panic of the processing *)
  assert (forall w1 t v,
             heap w1 = heap w ->
             process fo ctx (Some l) w = {| result := Panicked v; world := w1; trace := t |} ->
             CreateOrUpdate fo ctx (FunctionObject (Some l)) w = recovered fo l f w1 t v)
    as Hrecovered.
  { intros w1 t v Hheap Hrun. unfold CreateOrUpdate. cbn [assertFunction fst snd negb].
    eapply catch_panicked; [exact Hrun|].
    assert (heap w1 !! l = Some f) as live1 by (by rewrite Hheap).
    erewrite bind_returned by (by apply setFunctionError_run).
    unfold after, mret, Go_ret. cbn [result world trace]. by rewrite app_nil_r. }
  destruct (validation.IsQualifiedName (nuclioio.Name f)) as [|m ms] eqn:Hvalid.
  2: { rewrite <- Hvalid in *.
       erewrite CreateOrUpdate_returned; [apply Hinvalid; by rewrite Hvalid|].
       unfold process. run. by rewrite Hvalid. }
  destruct (functionconfig.FunctionStateInSlice state statesToRespond) eqn:Hrespond.
  2: { erewrite CreateOrUpdate_returned; [by apply Hunresponsive|].
       unfold process. run. fold state. rewrite Hvalid, Hrespond. by run. }
  destruct (functionconfig.ShouldSkipDeploy (nuclioio.Annotations f)) eqn:Hskip.
  { erewrite CreateOrUpdate_returned; [by apply Hskipped|].
    unfold process. run. fold state. rewrite Hvalid, Hrespond, Hskip.
    cbn [length Nat.eqb negb]. run.
    rewrite (setFunctionStatus_run fo l w f live). by run. }
  destruct (Hprovisioning eq_refl eq_refl eq_refl)
    as (Hcreation_panics & Hcreation_fails & Hwait_panics & Hwait_fails & Hhealthy
        & Hno_resources & Hservice_panics & Hservice_fails & Hfinalized).
  pose proof (process_provisioning fo ctx l w f live Hvalid Hrespond Hskip) as Hrun.
  fold creation in Hrun.
  destruct creation as [[resources [err|]]|v] eqn:Hcreated; cbn [fst snd] in Hrun.
  - (* creation fails *)
    rewrite (setFunctionError_run fo l w f live) in Hrun. normalize_run Hrun.
    rewrite (CreateOrUpdate_returned _ _ _ _ _ _ _ Hrun). by eapply Hcreation_fails.
  - (* the readiness wait *)
    clear Hrun.
    pose proof (process_waiting fo ctx l w f live resources Hvalid Hrespond Hskip Hcreated)
      as Hrun.
    cbv zeta in Hrun. rewrite waitAndFinalize_run in Hrun by exact live.
    fold waitContext wait in Hrun.
    destruct wait as [[err|]|v] eqn:Hwaited.
    + normalize_run Hrun.
      rewrite (CreateOrUpdate_returned _ _ _ _ _ _ _ Hrun).
      by eapply Hwait_fails.
    + fold state in Hrun.
      destruct (functionconfig.FunctionStateInSlice state waitingStates) eqn:Hwaiting.
      * destruct resources as [resources|].
        -- destruct (functionres.Service resources) as [[service [err|]]|v] eqn:Hservice.
           ++ erewrite bind_returned in Hrun
                by (rewrite getFunctionHTTPPort_run, Hservice; reflexivity).
              normalize_run Hrun.
              rewrite (CreateOrUpdate_returned _ _ _ _ _ _ _ Hrun). by eapply Hservice_fails.
           ++ clear Hrun.
              assert (state ∈ waitingStates) as Hin
                  by (by apply FunctionStateInSlice_elem_of).
              pose proof (process_finalized fo ctx l w f live resources service
                            Hvalid Hin Hskip Hcreated Hwaited Hservice) as Hrun.
              cbv zeta in Hrun.
              rewrite (CreateOrUpdate_returned _ _ _ _ _ _ _ Hrun). by eapply Hfinalized.
           ++ erewrite bind_panicked in Hrun
                by (rewrite getFunctionHTTPPort_run, Hservice; reflexivity).
              normalize_run Hrun.
              rewrite (Hrecovered (tick w) _ _ eq_refl Hrun). by eapply Hservice_panics.
        -- erewrite bind_panicked in Hrun by apply getFunctionHTTPPort_nil.
           normalize_run Hrun.
           rewrite (Hrecovered (tick w) _ _ eq_refl Hrun). by apply Hno_resources.
      * normalize_run Hrun.
        rewrite (CreateOrUpdate_returned _ _ _ _ _ _ _ Hrun). by eapply Hhealthy.
    + normalize_run Hrun.
      rewrite (Hrecovered (tick w) _ _ eq_refl Hrun). by eapply Hwait_panics.
  - (* creation panics *)
    normalize_run Hrun.
    rewrite (Hrecovered w _ _ eq_refl Hrun). by apply Hcreation_panics.
Qed.


Lemma withStatus_same : nuclioio.withStatus f (nuclioio.Status f) = f.
Proof. by destruct f. Qed.

(** A goal on the run of the handler, split into its paths. *)
Ltac paths :=
  apply CreateOrUpdate_cases; cbv zeta; intros;
  repeat match goal with |- _ /\ _ => split end;
  intros.

(** Whatever path the handler takes, the heap it leaves is the heap it
    found with some status written into the function object. *)
Lemma CreateOrUpdate_heap :
  exists status,
    heap (world (CreateOrUpdate fo ctx (FunctionObject (Some l)) w))
    = <[l := nuclioio.withStatus f status]> (heap w).
Proof.
  paths;
    cbn [recovered result world trace withHeap tick heap];
    first [ by eexists
          | exists (nuclioio.Status f); by rewrite withStatus_same, list_insert_id ].
Qed.

(** X2. The handler changes nothing but the status of the function it is
    handed: the heap keeps its size, every other function object is left
    as it was, and the object itself keeps its name, namespace,
    annotations and spec, on every path, a recovered panic included. *)
Theorem reconcile_changes_only_the_status :
  let r := CreateOrUpdate fo ctx (FunctionObject (Some l)) w in
  length (heap (world r)) = length (heap w)
  /\ (forall l', l' <> l -> heap (world r) !! l' = heap w !! l')
  /\ exists f',
       heap (world r) !! l = Some f'
       /\ nuclioio.Name f' = nuclioio.Name f
       /\ nuclioio.Namespace f' = nuclioio.Namespace f
       /\ nuclioio.Annotations f' = nuclioio.Annotations f
       /\ nuclioio.Spec f' = nuclioio.Spec f.
Proof.
  intros r. subst r. destruct CreateOrUpdate_heap as [status ->].
  split; [apply length_insert|]. split.
  - intros l' Hother. by apply list_lookup_insert_ne.
  - exists (nuclioio.withStatus f status). split; [|done].
    apply list_lookup_insert_eq. by eapply lookup_lt_Some.
Qed.

(** Reading an observation off an explicit trace. *)
Ltac observe :=
  unfold provisions, statusWrites, resourceCreations, readinessWaits, cancellations,
    stampedScaleEvents, recovered, errorTrace;
  cbn [result world trace];
  repeat rewrite flat_map_app;
  repeat match goal with
         | |- context [NuclioFunctionsUpdate ?cs ?ns ?g] =>
             destruct (NuclioFunctionsUpdate cs ns g)
         end;
  cbn [flat_map app].

(** At most one status write, and it is what memory holds. *)
Lemma CreateOrUpdate_writes :
  let r := CreateOrUpdate fo ctx (FunctionObject (Some l)) w in
  (statusWrites (trace r) = [] /\ heap (world r) = heap w)
  \/ (exists status,
         statusWrites (trace r) = [nuclioio.withStatus f status]
         /\ heap (world r) = <[l := nuclioio.withStatus f status]> (heap w)).
Proof.
  paths; observe;
    first [ by left | right; by eexists ].
Qed.

(** X3. A reconcile issues at most one status write, and memory and the
    store never part on what was written: either nothing is written and
    the function objects are as they were, or the one object handed to
    [Update] is the function object as the handler leaves it in memory. *)
Theorem status_write_matches_memory :
  let r := CreateOrUpdate fo ctx (FunctionObject (Some l)) w in
  (statusWrites (trace r) = [] /\ heap (world r) = heap w)
  \/ (exists written,
         statusWrites (trace r) = [written]
         /\ heap (world r) !! l = Some written
         /\ heap (world r) = <[l := written]> (heap w)).
Proof.
  intros r. destruct CreateOrUpdate_writes as [Hnone|(status & Hwrites & Hheap)];
    [by left|right].
  exists (nuclioio.withStatus f status). subst r. rewrite Hwrites, Hheap.
  repeat split. apply list_lookup_insert_eq. by eapply lookup_lt_Some.
Qed.

(** X4. The handler never writes a waiting state, nor the zero state the
    switch on the waiting state would leave without a matching case: the
    state of a status write is [Ready], [ScaledToZero], [Imported],
    [Error] or [Unhealthy]. *)
Theorem written_state_is_final_or_error :
  let r := CreateOrUpdate fo ctx (FunctionObject (Some l)) w in
  Forall (fun f' => functionconfig.State (nuclioio.Status f') ∈ writtenStates)
    (statusWrites (trace r)).
Proof.
  paths; observe;
    repeat match goal with |- Forall _ _ => constructor end;
    try match goal with
        | H : functionconfig.FunctionStateInSlice _ waitingStates = true |- _ ∈ _ =>
            destruct (functionconfig.State (nuclioio.Status f)); try discriminate H
        end;
    cbn [scaleTransition snd nuclioio.withStatus nuclioio.Status finalizedStatus
         errorStatus statusOf functionconfig.State];
    unfold writtenStates;
    repeat first [apply list_elem_of_here | apply list_elem_of_further].
Qed.

(** X5. The context of the readiness wait is cancelled exactly when it was
    derived for a wait: the contexts cancelled are the contexts waited on,
    at most one, on every path. *)
Theorem wait_context_is_cancelled_once :
  let r := CreateOrUpdate fo ctx (FunctionObject (Some l)) w in
  cancellations (trace r) = readinessWaits (trace r)
  /\ (length (readinessWaits (trace r)) <= 1)%nat.
Proof.
  paths; observe; repeat split; first [ reflexivity | cbn [length]; lia ].
Qed.

(** X6. The resource client waits for the resources exactly when it was
    asked to create them and returned without error: on the provisioning
    path with a creation that returns no error [WaitAvailable] is called
    once, with the context derived from the handler's context, the clock
    and the function's timeout; on every other path it is not called. *)
Theorem wait_follows_successful_creation :
  let r := CreateOrUpdate fo ctx (FunctionObject (Some l)) w in
  readinessWaits (trace r)
  = match provisioning f,
          functionres.CreateOrUpdate (functionresClient fo) ctx f (imagePullSecrets fo) with
    | true, Returned (_, None) => [readinessContext ctx (clock w (ticks w)) f]
    | _, _ => []
    end.
Proof.
  unfold provisioning.
  paths; observe;
    repeat match goal with
           | H : ?x = _ |- context [?x] => rewrite H
           end; try reflexivity.
  by destruct (validation.IsQualifiedName (nuclioio.Name f)).
Qed.

(** X7. The resources of a function are created at most once in a
    reconcile, from the function object as the handler found it, and
    exactly on the provisioning path: when the name is valid, the state is
    one the operator responds to and the function is not marked
    skip-deploy. *)
Theorem resources_are_created_at_most_once :
  let r := CreateOrUpdate fo ctx (FunctionObject (Some l)) w in
  resourceCreations (trace r) = if provisioning f then [f] else [].
Proof.
  unfold provisioning.
  paths; observe;
    repeat match goal with
           | H : ?x = _ |- context [?x] => rewrite H
           end; try reflexivity.
  by destruct (validation.IsQualifiedName (nuclioio.Name f)).
Qed.

(** The run of the handler on a function in a state the operator does not
    respond to. *)
Lemma CreateOrUpdate_unresponsive :
  validation.IsQualifiedName (nuclioio.Name f) = [] ->
  functionconfig.State (nuclioio.Status f) ∉ statesToRespond ->
  CreateOrUpdate fo ctx (FunctionObject (Some l)) w =
  {| result := Returned None;
     world := w;
     trace :=
       [EvLog DebugLevel
          "NuclioFunction is not waiting for resource creation or ready, skipping create/update"
          [("name", LogString (nuclioio.Name f));
           ("state", LogState (functionconfig.State (nuclioio.Status f)));
           ("namespace", LogString (nuclioio.Namespace f))]] |}.
Proof.
  intros Hvalid Hunresponsive.
  assert (functionconfig.FunctionStateInSlice
            (functionconfig.State (nuclioio.Status f)) statesToRespond = false) as Hrespond.
  { destruct (functionconfig.FunctionStateInSlice _ _) eqn:Hin; [|done].
    by apply FunctionStateInSlice_elem_of in Hin. }
  apply CreateOrUpdate_returned.
  unfold process. run. rewrite Hvalid, Hrespond. by run.
Qed.

(** X1. A function of valid name whose state is not one the operator
    responds to is skipped: the handler says so to the logger and returns
    nil; it calls neither the resource client nor the store, reads no
    clock and leaves the world as it found it. *)
Theorem unresponsive_state_is_skipped :
  validation.IsQualifiedName (nuclioio.Name f) = [] ->
  functionconfig.State (nuclioio.Status f) ∉ statesToRespond ->
  let r := CreateOrUpdate fo ctx (FunctionObject (Some l)) w in
  result r = Returned None
  /\ world r = w
  /\ statusWrites (trace r) = []
  /\ resourceCreations (trace r) = []
  /\ trace r =
       [EvLog DebugLevel
          "NuclioFunction is not waiting for resource creation or ready, skipping create/update"
          [("name", LogString (nuclioio.Name f));
           ("state", LogState (functionconfig.State (nuclioio.Status f)));
           ("namespace", LogString (nuclioio.Namespace f))]].
Proof.
  intros Hvalid Hunresponsive r. subst r.
  by rewrite (CreateOrUpdate_unresponsive Hvalid Hunresponsive).
Qed.

(** X8. [setFunctionError] hands back the error it was given, whatever
    becomes of the status write.  The function object in memory, which is
    the one object sent to the store, carries the error state, the stack
    of the error cut at depth 10 as its message and no other status field,
    and is otherwise the object as it was, even when the store refuses the
    update; a refusal is only logged, as the last thing the function does,
    by its cause: the error the refusal wraps, or the refusal itself when
    it wraps none. *)
Theorem setFunctionError_returns_the_given_error state err :
  let r := setFunctionError fo (Some l) state err w in
  result r = Returned (Some err)
  /\ exists written,
       heap (world r) !! l = Some written
       /\ functionconfig.State (nuclioio.Status written) = state
       /\ functionconfig.Message (nuclioio.Status written)
          = errors.GetErrorStackString err 10
       /\ functionconfig.Logs (nuclioio.Status written) = []
       /\ functionconfig.ScaleToZero (nuclioio.Status written) = None
       /\ functionconfig.HTTPPort (nuclioio.Status written) = 0
       /\ nuclioio.Name written = nuclioio.Name f
       /\ nuclioio.Namespace written = nuclioio.Namespace f
       /\ nuclioio.Annotations written = nuclioio.Annotations f
       /\ nuclioio.Spec written = nuclioio.Spec f
       /\ statusWrites (trace r) = [written]
       /\ last (trace r)
          = Some (match NuclioFunctionsUpdate (nuclioClientSet (controller fo))
                          (nuclioio.Namespace f) written with
                  | Some (errors.Wrap cause _) =>
                      EvLog WarnLevel "Failed to update function on error"
                        [("setStatusErr", LogError cause)]
                  | Some (errors.New message) =>
                      EvLog WarnLevel "Failed to update function on error"
                        [("setStatusErr", LogError (errors.New message))]
                  | None => EvUpdate (nuclioio.Namespace f) written
                  end).
Proof.
  intros r. subst r.
  rewrite (setFunctionError_run fo l w f live). cbn [result world trace].
  split; [reflexivity|].
  exists (nuclioio.withStatus f (errorStatus state err)).
  split; [by apply lookup_stored with (f := f)|].
  do 9 (split; [reflexivity|]).
  split.
  - observe; reflexivity.
  - unfold errorTrace.
    destruct (NuclioFunctionsUpdate _ _ _) as [[message|cause message]|]; reflexivity.
Qed.

(** X16. On a live function object no panic leaves the handler: whatever
    the resource client and the resources do, return, fail or panic, and
    even when the client hands back no resources at all, the handler
    returns to the worker. *)
Theorem handler_always_returns :
  exists err, result (CreateOrUpdate fo ctx (FunctionObject (Some l)) w) = Returned err.
Proof. paths; by eexists. Qed.

End Paths.

(** ** One reconcile after another *)

Section Successive.

Context {validator : validation.API} {platform : abstract.Defaults}.
Variables (fo : functionOperator) (ctx ctx' : context.Context).
Variables (l : nat) (w : World) (f : nuclioio.NuclioFunction).
Hypothesis live : heap w !! l = Some f.

(** X9. A function that a reconcile left in a state the operator does not
    respond to ([Imported], [Error] or [Unhealthy] among the states it
    writes) is not reconciled again: the next reconcile of the object only
    logs that it skips it, and calls neither the resource client nor the
    store, so nothing of the operator's moves the function out of that
    state. *)
Theorem written_unresponsive_state_is_absorbing written :
  validation.IsQualifiedName (nuclioio.Name f) = [] ->
  let r1 := CreateOrUpdate fo ctx (FunctionObject (Some l)) w in
  statusWrites (trace r1) = [written] ->
  functionconfig.State (nuclioio.Status written) ∉ statesToRespond ->
  let r2 := CreateOrUpdate fo ctx' (FunctionObject (Some l)) (world r1) in
  result r2 = Returned None
  /\ world r2 = world r1
  /\ statusWrites (trace r2) = []
  /\ resourceCreations (trace r2) = [].
Proof.
  intros Hvalid r1 Hwritten Hunresponsive r2.
  destruct (CreateOrUpdate_writes fo ctx l w f live)
    as [[Hnone _]|(status & Hwrites & Hheap)].
  - subst r1. rewrite Hnone in Hwritten. discriminate.
  - subst r1. rewrite Hwrites in Hwritten. injection Hwritten as <-.
    assert (heap (world (CreateOrUpdate fo ctx (FunctionObject (Some l)) w)) !! l
            = Some (nuclioio.withStatus f status)) as live1.
    { rewrite Hheap. apply list_lookup_insert_eq. by eapply lookup_lt_Some. }
    subst r2.
    by rewrite (CreateOrUpdate_unresponsive fo ctx' l _ _ live1 Hvalid Hunresponsive).
Qed.

(** X10. A finalized function converges: when a reconcile has taken a
    function out of a waiting state, the next reconcile of the object, with
    the resources created and available again, writes no status and
    leaves the function objects as the first left them. *)
Theorem finalized_function_converges
    resources service scaleEvent finalState resources' :
  validation.IsQualifiedName (nuclioio.Name f) = [] ->
  finalizes (functionconfig.State (nuclioio.Status f)) scaleEvent finalState ->
  functionconfig.ShouldSkipDeploy (nuclioio.Annotations f) = false ->
  functionres.CreateOrUpdate (functionresClient fo) ctx f (imagePullSecrets fo)
    = Returned (Some resources, None) ->
  functionres.WaitAvailable (functionresClient fo)
    (readinessContext ctx (clock w (ticks w)) f) (nuclioio.Namespace f) (nuclioio.Name f)
    = Returned None ->
  functionres.Service resources = Returned (service, None) ->
  let r1 := CreateOrUpdate fo ctx (FunctionObject (Some l)) w in
  let finalized :=
    nuclioio.withStatus f
      (finalizedStatus finalState (servicePort service) scaleEvent (clock w (S (ticks w)))) in
  functionres.CreateOrUpdate (functionresClient fo) ctx' finalized (imagePullSecrets fo)
    = Returned (resources', None) ->
  functionres.WaitAvailable (functionresClient fo)
    (readinessContext ctx' (clock w (S (S (ticks w)))) finalized)
    (nuclioio.Namespace f) (nuclioio.Name f)
    = Returned None ->
  let r2 := CreateOrUpdate fo ctx' (FunctionObject (Some l)) (world r1) in
  heap (world r1) !! l = Some finalized
  /\ result r2 = Returned None
  /\ heap (world r2) = heap (world r1)
  /\ statusWrites (trace r2) = [].
Proof.
  intros Hvalid Hfinalizes Hskip Hcreated Hwaited Hservice r1 finalized
    Hcreated' Hwaited' r2.
  destruct (finalizes_waiting _ _ _ Hfinalizes) as [Hwaiting Htransition].
  pose proof (process_finalized fo ctx l w f live _ _
                Hvalid Hwaiting Hskip Hcreated Hwaited Hservice) as Hrun.
  rewrite Htransition in Hrun. cbn [fst snd] in Hrun. fold finalized in Hrun.
  apply CreateOrUpdate_returned in Hrun. fold r1 in Hrun.
  assert (heap (world r1) !! l = Some finalized) as live1.
  { rewrite Hrun. cbn [world]. exact (lookup_stored l f finalized (tick (tick w)) live). }
  split; [exact live1|].
  assert (functionconfig.FunctionStateInSlice
            (functionconfig.State (nuclioio.Status finalized)) statesToRespond = true
          /\ functionconfig.FunctionStateInSlice
               (functionconfig.State (nuclioio.Status finalized)) waitingStates = false)
    as [Hrespond' Hwaiting'] by (by destruct Hfinalizes).
  assert (clock (world r1) (ticks (world r1)) = clock w (S (S (ticks w)))) as Hclock
      by (by rewrite Hrun).
  pose proof (process_waiting fo ctx' l (world r1) finalized live1 resources'
                Hvalid Hrespond' Hskip Hcreated') as Hrun'.
  cbv zeta in Hrun'.
  rewrite (waitAndFinalize_run fo ctx' l (world r1) finalized live1) in Hrun'.
  rewrite Hclock in Hrun'.
  change (nuclioio.Namespace finalized) with (nuclioio.Namespace f) in Hrun'.
  change (nuclioio.Name finalized) with (nuclioio.Name f) in Hrun'.
  rewrite Hwaited', Hwaiting' in Hrun'. normalize_run Hrun'.
  apply CreateOrUpdate_returned in Hrun'. fold r2 in Hrun'.
  rewrite Hrun'. by cbn [result world trace tick heap].
Qed.

End Successive.

(** ** The deadline of the readiness wait, whatever the timeout *)


(** X12. Only a timeout of 0 is replaced by the default: a negative
    timeout is taken as it is, and the context derived from it has
    expired before the wait begins. *)
Theorem negative_timeout_has_expired
    {platform : abstract.Defaults}
    (ctx : context.Context) (now : time.Time) (f : nuclioio.NuclioFunction) :
  - 9223372036 <= functionconfig.ReadinessTimeoutSeconds (nuclioio.Spec f) < 0 ->
  readinessTimeoutOf f = functionconfig.ReadinessTimeoutSeconds (nuclioio.Spec f)
  /\ exists deadline,
       context.Deadline (readinessContext ctx now f) = Some deadline
       /\ deadline < now.
Proof.
  intros Hnegative.
  assert (readinessTimeoutOf f = functionconfig.ReadinessTimeoutSeconds (nuclioio.Spec f))
    as Htimeout.
  { unfold readinessTimeoutOf. destruct (Z.eqb_spec (functionconfig.ReadinessTimeoutSeconds
                                                        (nuclioio.Spec f)) 0); [lia|done]. }
  split; [exact Htimeout|].
  eexists. split; [apply WithDeadline_Deadline|].
  rewrite Htimeout.
  assert (time.Seconds (functionconfig.ReadinessTimeoutSeconds (nuclioio.Spec f))
          = functionconfig.ReadinessTimeoutSeconds (nuclioio.Spec f) * time.Second)
    as ->.
  { unfold time.Seconds, time.Second.
    rewrite (int64_small (functionconfig.ReadinessTimeoutSeconds (nuclioio.Spec f))) by lia.
    apply int64_small. lia. }
  unfold earliest, time.Add, time.Second.
  destruct (context.Deadline ctx); lia.
Qed.

(** ** Deletion, and a nil function pointer *)

(** X13. [Delete] hands the deletion over to the resource client and
    yields what the client yields, an error or a panic alike, for there is
    no recovery on this path; it writes no status and leaves the function
    objects and the clock as they were. *)
Theorem Delete_delegates_and_writes_nothing
    (fo : functionOperator) (ctx : context.Context) (namespace name : string) (w : World) :
  let r := Delete fo ctx namespace name w in
  result r = functionres.Delete (functionresClient fo) ctx namespace name
  /\ world r = w
  /\ statusWrites (trace r) = []
  /\ resourceCreations (trace r) = []
  /\ trace r =
       [EvLog DebugLevel "Deleting function"
          [("name", LogString name); ("namespace", LogString namespace)];
        EvResourcesDelete ctx namespace name].
Proof.
  intros r. subst r. unfold Delete. run. unfold call. run.
  by destruct (functionres.Delete _ _ _ _).
Qed.

(** X14. A nil function pointer passes the type assertion, so the handler
    installs its panic-recovery boundary and then panics on the name of
    the function; the recovery logs the panic and calls [setFunctionError]
    on the same nil pointer, which panics again: the panic leaves the
    handler, and nothing is written. *)
Theorem nil_function_pointer_panics_through_the_recovery
    {validator : validation.API} {platform : abstract.Defaults}
    (fo : functionOperator) (ctx : context.Context) (w : World) :
  CreateOrUpdate fo ctx (FunctionObject None) w =
  {| result := Panicked nilDereference;
     world := w;
     trace := [EvLog ErrorLevel ("Panic caught while " +:+ "nucliofunction.CreateOrUpdate")
                 [("err", LogError nilDereference); ("function", LogFunctionPtr None)]] |}.
Proof.
  unfold CreateOrUpdate, defer, process, setFunctionError.
  cbn [assertFunction fst snd negb common.CatchAndLogPanicWithOptions].
  run. reflexivity.
Qed.

(** ** The stamp of a scale event *)

(** X15. Stamping a scale event never fails and touches nothing but the
    stamp: the status keeps its state, message, logs and port, an earlier
    stamp is replaced by the event and the reading of the clock, and the
    clock is read once. *)
Theorem scale_stamp_replaces_only_the_stamp
    (ctx : context.Context) (functionStatus : functionconfig.Status)
    (scaleToZeroEvent : scaler_types.ScaleEvent) (w : World) :
  let r := setFunctionScaleToZeroStatus ctx functionStatus scaleToZeroEvent w in
  exists stamped,
    result r = Returned (stamped, None)
    /\ functionconfig.State stamped = functionconfig.State functionStatus
    /\ functionconfig.Message stamped = functionconfig.Message functionStatus
    /\ functionconfig.Logs stamped = functionconfig.Logs functionStatus
    /\ functionconfig.HTTPPort stamped = functionconfig.HTTPPort functionStatus
    /\ functionconfig.ScaleToZero stamped
       = Some {| functionconfig.LastScaleEvent := scaleToZeroEvent;
                 functionconfig.LastScaleEventTime := Some (clock w (ticks w)) |}
    /\ world r = tick w
    /\ stampedScaleEvents (trace r) = [scaleToZeroEvent].
Proof.
  intros r. subst r. unfold setFunctionScaleToZeroStatus. run.
  eexists. by repeat split.
Qed.

(** ** Further scenarios *)

Section FurtherScenarios.

Import fixtures.

#[local] Existing Instance nameValidator.
#[local] Existing Instance defaults.

(** A function in state [Error] is resynced. *)
Lemma errored_function_is_skipped :
  let f := function "fn1" ∅ 0 functionconfig.FunctionStateError in
  let r := CreateOrUpdate (operator (healthyClient 30080) None) context.Background
             (FunctionObject (Some 0%nat)) (worldOf f) in
  result r = Returned None
  /\ world r = worldOf f
  /\ statusWrites (trace r) = []
  /\ resourceCreations (trace r) = []
  /\ trace r =
       [EvLog DebugLevel
          "NuclioFunction is not waiting for resource creation or ready, skipping create/update"
          [("name", LogString "fn1"); ("state", LogState functionconfig.FunctionStateError);
           ("namespace", LogString "nuclio")]].
Proof.
  apply (unresponsive_state_is_skipped (validator := nameValidator) (platform := defaults)
           (operator (healthyClient 30080) None) context.Background 0
           (worldOf (function "fn1" ∅ 0 functionconfig.FunctionStateError))
           (function "fn1" ∅ 0 functionconfig.FunctionStateError) eq_refl).
  - vm_compute. reflexivity.
  - intros Hin. apply FunctionStateInSlice_elem_of in Hin. vm_compute in Hin. discriminate.
Defined.

(** The happy path next to a bystander: the bystander is not touched. *)
Lemma bystander_is_left_alone :
  let r := CreateOrUpdate (operator (healthyClient 30080) None) context.Background
             (FunctionObject (Some 1%nat)) (sharedWorld configuring) in
  length (heap (world r)) = 2%nat
  /\ (forall l', l' <> 1%nat -> heap (world r) !! l' = [bystander; configuring] !! l')
  /\ exists f',
       heap (world r) !! 1%nat = Some f'
       /\ nuclioio.Name f' = "fn1"
       /\ nuclioio.Namespace f' = "nuclio"
       /\ nuclioio.Annotations f' = ∅
       /\ nuclioio.Spec f' = {| functionconfig.ReadinessTimeoutSeconds := 0 |}.
Proof.
  exact (reconcile_changes_only_the_status (validator := nameValidator) (platform := defaults)
           (operator (healthyClient 30080) None) context.Background 1
           (sharedWorld configuring) configuring eq_refl).
Defined.

(** The readiness wait fails and the store refuses the status: memory
    still holds what the store was sent. *)
Lemma refused_write_is_still_in_memory :
  let fo := operator (client (Returned (None, None))
                        (Returned (Some (errors.New "context deadline exceeded"))))
              (Some (errors.New "conflict")) in
  let r := CreateOrUpdate fo context.Background (FunctionObject (Some 0%nat))
             (worldOf configuring) in
  (statusWrites (trace r) = [] /\ heap (world r) = [configuring])
  \/ (exists written,
         statusWrites (trace r) = [written]
         /\ heap (world r) !! 0%nat = Some written
         /\ heap (world r) = <[0%nat := written]> [configuring]).
Proof.
  exact (status_write_matches_memory (validator := nameValidator) (platform := defaults)
           (operator (client (Returned (None, None))
                        (Returned (Some (errors.New "context deadline exceeded"))))
              (Some (errors.New "conflict")))
           context.Background 0 (worldOf configuring) configuring eq_refl).
Defined.

(** A function scaling to zero is written as scaled to zero. *)
Lemma scaled_function_is_written_in_a_final_state :
  let f := function "fn1" ∅ 0 functionconfig.FunctionStateWaitingForScaleResourcesToZero in
  let r := CreateOrUpdate (operator (healthyClient 30080) None) context.Background
             (FunctionObject (Some 0%nat)) (worldOf f) in
  Forall (fun f' => functionconfig.State (nuclioio.Status f') ∈ writtenStates)
    (statusWrites (trace r)).
Proof.
  exact (written_state_is_final_or_error (validator := nameValidator) (platform := defaults)
           (operator (healthyClient 30080) None) context.Background 0
           (worldOf (function "fn1" ∅ 0
                       functionconfig.FunctionStateWaitingForScaleResourcesToZero))
           (function "fn1" ∅ 0 functionconfig.FunctionStateWaitingForScaleResourcesToZero)
           eq_refl).
Defined.

(** The readiness wait panics: its context is cancelled all the same. *)
Lemma panicking_wait_is_cancelled :
  let fo := operator (client (Returned (None, None)) (Panicked (errors.New "boom"))) None in
  let r := CreateOrUpdate fo context.Background (FunctionObject (Some 0%nat))
             (worldOf configuring) in
  cancellations (trace r) = readinessWaits (trace r)
  /\ (length (readinessWaits (trace r)) <= 1)%nat.
Proof.
  exact (wait_context_is_cancelled_once (validator := nameValidator) (platform := defaults)
           (operator (client (Returned (None, None)) (Panicked (errors.New "boom"))) None)
           context.Background 0 (worldOf configuring) configuring eq_refl).
Defined.

(** The happy path waits once, until 120 seconds after the first reading
    of the clock. *)
Lemma happy_path_waits_once :
  let r := CreateOrUpdate (operator (healthyClient 30080) None) context.Background
             (FunctionObject (Some 0%nat)) (worldOf configuring) in
  readinessWaits (trace r) = [context.timerCtx context.Background 120000001000].
Proof.
  exact (wait_follows_successful_creation (validator := nameValidator) (platform := defaults)
           (operator (healthyClient 30080) None) context.Background 0
           (worldOf configuring) configuring eq_refl).
Defined.

(** The happy path creates the resources once; a function marked
    skip-deploy has none created. *)
Lemma resources_created_scenarios :
  (let r := CreateOrUpdate (operator (healthyClient 30080) None) context.Background
              (FunctionObject (Some 0%nat)) (worldOf configuring) in
   resourceCreations (trace r) = [configuring])
  /\ (let f := function "fn1" {[ "skip-deploy" := "true" ]} 0
                 functionconfig.FunctionStateReady in
      let r := CreateOrUpdate (operator (healthyClient 30080) None) context.Background
                 (FunctionObject (Some 0%nat)) (worldOf f) in
      resourceCreations (trace r) = []).
Proof.
  split.
  - exact (resources_are_created_at_most_once
             (validator := nameValidator) (platform := defaults)
             (operator (healthyClient 30080) None) context.Background 0
             (worldOf configuring) configuring eq_refl).
  - exact (resources_are_created_at_most_once
             (validator := nameValidator) (platform := defaults)
             (operator (healthyClient 30080) None) context.Background 0
             (worldOf (function "fn1" {[ "skip-deploy" := "true" ]} 0
                         functionconfig.FunctionStateReady))
             (function "fn1" {[ "skip-deploy" := "true" ]} 0
                functionconfig.FunctionStateReady) eq_refl).
Defined.

(** The store refuses the error status with a conflict wrapped twice: the
    warning carries the refusal one level down. *)
Lemma refused_error_status_is_logged :
  let rejected := errors.Wrap (errors.New "conflict") "etcd rejected the write" in
  let fo := operator (healthyClient 30080)
              (Some (errors.Wrap rejected "Failed to update function")) in
  let err := errors.New "quota exceeded" in
  let r := setFunctionError fo (Some 0%nat) functionconfig.FunctionStateError err
             (worldOf configuring) in
  result r = Returned (Some err)
  /\ exists written,
       heap (world r) !! 0%nat = Some written
       /\ functionconfig.State (nuclioio.Status written) = functionconfig.FunctionStateError
       /\ functionconfig.Message (nuclioio.Status written)
          = errors.newline +:+ "Error - quota exceeded"
            +:+ errors.newline +:+ "Call stack:"
            +:+ errors.newline +:+ "quota exceeded"
       /\ functionconfig.Logs (nuclioio.Status written) = []
       /\ functionconfig.ScaleToZero (nuclioio.Status written) = None
       /\ functionconfig.HTTPPort (nuclioio.Status written) = 0
       /\ nuclioio.Name written = "fn1"
       /\ nuclioio.Namespace written = "nuclio"
       /\ nuclioio.Annotations written = ∅
       /\ nuclioio.Spec written = {| functionconfig.ReadinessTimeoutSeconds := 0 |}
       /\ statusWrites (trace r) = [written]
       /\ last (trace r)
          = Some (EvLog WarnLevel "Failed to update function on error"
                    [("setStatusErr", LogError rejected)]).
Proof.
  exact (setFunctionError_returns_the_given_error
           (operator (healthyClient 30080)
              (Some (errors.Wrap
                       (errors.Wrap (errors.New "conflict") "etcd rejected the write")
                       "Failed to update function")))
           0 (worldOf configuring) configuring eq_refl
           functionconfig.FunctionStateError (errors.New "quota exceeded")).
Defined.

(** Resource creation fails, the function is left in state [Error], and
    the next reconcile skips it. *)
Lemma errored_function_stays_errored :
  let fo := operator (client (Returned (None, Some (errors.New "quota exceeded")))
                        (Returned None)) None in
  let r1 := CreateOrUpdate fo context.Background (FunctionObject (Some 0%nat))
              (worldOf configuring) in
  let r2 := CreateOrUpdate fo context.Background (FunctionObject (Some 0%nat)) (world r1) in
  result r2 = Returned None
  /\ world r2 = world r1
  /\ statusWrites (trace r2) = []
  /\ resourceCreations (trace r2) = [].
Proof.
  apply (written_unresponsive_state_is_absorbing
           (validator := nameValidator) (platform := defaults)
           (operator (client (Returned (None, Some (errors.New "quota exceeded")))
                        (Returned None)) None)
           context.Background context.Background 0 (worldOf configuring) configuring eq_refl
           (nuclioio.withStatus configuring
              (errorStatus functionconfig.FunctionStateError
                 (errors.Wrap (errors.New "quota exceeded")
                    "Failed to create/update function")))).
  - vm_compute. reflexivity.
  - vm_compute. reflexivity.
  - intros Hin. apply FunctionStateInSlice_elem_of in Hin. vm_compute in Hin. discriminate.
Defined.

(** S1 followed by a resync. *)
Lemma ready_function_converges :
  let fo := operator (healthyClient 30080) None in
  let r1 := CreateOrUpdate fo context.Background (FunctionObject (Some 0%nat))
              (worldOf configuring) in
  let finalized :=
    nuclioio.withStatus configuring
      (finalizedStatus functionconfig.FunctionStateReady 30080
         scaler_types.ResourceUpdatedScaleEvent 1007) in
  let r2 := CreateOrUpdate fo context.Background (FunctionObject (Some 0%nat)) (world r1) in
  heap (world r1) !! 0%nat = Some finalized
  /\ result r2 = Returned None
  /\ heap (world r2) = heap (world r1)
  /\ statusWrites (trace r2) = [].
Proof.
  apply (finalized_function_converges (validator := nameValidator) (platform := defaults)
           (operator (healthyClient 30080) None) context.Background context.Background 0
           (worldOf configuring) configuring eq_refl
           (resourcesOf (Returned (Some (httpService 30080), None)))
           (Some (httpService 30080))
           scaler_types.ResourceUpdatedScaleEvent functionconfig.FunctionStateReady
           (Some (resourcesOf (Returned (Some (httpService 30080), None)))));
    [vm_compute; reflexivity | constructor | vm_compute; reflexivity
    | reflexivity | reflexivity | reflexivity | reflexivity | reflexivity].
Defined.

(** A timeout of -1 second: the wait context has expired one second before
    the clock was read. *)
Lemma negative_timeout_scenario :
  let f := function "fn1" ∅ (-1) functionconfig.FunctionStateWaitingForResourceConfiguration in
  readinessTimeoutOf f = -1
  /\ exists deadline,
       context.Deadline (readinessContext context.Background 5000000000 f) = Some deadline
       /\ deadline < 5000000000.
Proof.
  apply (negative_timeout_has_expired (platform := defaults) context.Background 5000000000
           (function "fn1" ∅ (-1)
              functionconfig.FunctionStateWaitingForResourceConfiguration)).
  cbn. lia.
Defined.

(** The resource client hands back neither resources nor an error to a
    function waiting for its resources: the handler panics on the nil
    handle and recovers. *)
Lemma missing_resources_do_not_stop_the_worker :
  exists err,
    result (CreateOrUpdate (operator emptyHandedClient None) context.Background
              (FunctionObject (Some 0%nat)) (worldOf configuring))
    = Returned err.
Proof.
  exact (handler_always_returns (validator := nameValidator) (platform := defaults)
           (operator emptyHandedClient None) context.Background 0
           (worldOf configuring) configuring eq_refl).
Defined.

End FurtherScenarios.
